(** * Student-performance notebook: preprocessing, split and job sequencing

    A shallow embedding of the code cells of
    [sagemaker-clarify/bias-and-explainability/student_performance_clarify.ipynb]:
    the function [_preprocess_data], the call of [train_test_split] and the
    order in which the cells submit work to the managed services.

    The pandas and scikit-learn operations the notebook calls are embedded
    with the behaviour they have for the notebook's kernel (Python 3.7,
    pandas 1.x, where [get_dummies] yields 0/1 integers). *)

From Stdlib Require Import ZArith QArith Qround.
From stdpp Require Import base decidable option list strings gmap sorting pretty.

Open Scope string_scope.
Open Scope list_scope.
Open Scope nat_scope.

(** ** Cells, series and frames *)

(** A cell of a frame: a string (object columns of the CSV), a number, or the
    missing value [NaN]. The notebook never computes with numbers, it only
    copies them, so integers stand for every numeric payload. *)
Inductive cell : Type :=
  | Str (s : string)
  | Num (z : Z)
  | NaN.

Global Instance cell_eq_dec : EqDecision cell.
Proof. solve_decision. Defined.

Global Instance cell_inhabited : Inhabited cell := populate NaN.

(** A [Series] is a name and its values; a [DataFrame] is its columns from
    left to right. All the pieces [_preprocess_data] puts side by side come
    from the one frame [students] and share its row index, so rows are
    identified by position. *)
Abbreviation series := (string * list cell)%type.
Abbreviation frame := (list (string * list cell)%type).

Definition nrows (f : frame) : nat :=
  match f with
  | [] => 0
  | c :: _ => length c.2
  end.

(** Every column has [n] rows. *)
Definition rectangular (n : nat) (f : frame) : Prop :=
  Forall (λ c : series, length c.2 = n) f.

(** Row [i] of a frame, and the list of all its rows. *)
Definition row (f : frame) (i : nat) : list cell :=
  (λ c : series, c.2 !!! i) <$> f.
Definition rows (f : frame) : list (list cell) :=
  row f <$> seq 0 (nrows f).

(** ** Exceptions *)

Inductive exn : Type :=
  | ValueError
  | AttributeError
  | KeyError
  | IndexError
  | NameError.

Inductive result (A : Type) : Type :=
  | Ok (a : A)
  | Raise (e : exn).
Arguments Ok {A} a.
Arguments Raise {A} e.

Global Instance result_ret : MRet result := λ A a, Ok a.
Global Instance result_bind : MBind result := λ A B k m,
  match m with
  | Ok a => k a
  | Raise e => Raise e
  end.

(** ** The pandas operations the notebook uses *)

(** [students.columns = names]: positional relabelling; pandas raises
    [ValueError] (length mismatch) unless there is one name per column. *)
Definition set_columns (f : frame) (names : list string) : result frame :=
  if decide (length names = length f)
  then Ok (zip names (f.*2))
  else Raise ValueError.

(** [frame.name]: the column carrying that label. No label is an
    [AttributeError]; with a repeated label pandas hands back a frame and not
    a series, for which the notebook's [.map] has no meaning, so that case is
    an [AttributeError] too. After [set_columns] with distinct names it cannot
    occur. *)
Definition getattr (f : frame) (name : string) : result series :=
  match filter (λ c : series, c.1 = name) f with
  | [c] => Ok c
  | _ => Raise AttributeError
  end.

(** [Series.map(d)] with a dict: each value is looked up in [d]; a value that
    is not a key (any other string, a number, a missing value) becomes [NaN].
    The name of the series is kept. *)
Definition map_cell (d : gmap string Z) (c : cell) : cell :=
  match c with
  | Str s =>
      match d !! s with
      | Some z => Num z
      | None => NaN
      end
  | _ => NaN
  end.

Definition Series_map (s : series) (d : gmap string Z) : series :=
  (s.1, map_cell d <$> s.2).

(** [pd.DataFrame(series)]: the frame with that one column. *)
Definition DataFrame (s : series) : frame := [s].

(** Arguments of [pd.concat]: a frame or a series. *)
Inductive pdobj : Type :=
  | Df (f : frame)
  | Sr (s : series).

Definition columns_of (o : pdobj) : frame :=
  match o with
  | Df f => f
  | Sr s => [s]
  end.

(** [pd.concat(objs, axis=1, sort=False)]: the columns of the arguments side
    by side, in order. *)
Definition concat (objs : list pdobj) : frame :=
  objs ≫= columns_of.

(** Order of the levels of [get_dummies]: numbers before strings, numbers by
    value, strings lexicographically. *)
Definition cell_le (a b : cell) : Prop :=
  match a, b with
  | Num x, Num y => (x ≤ y)%Z
  | Num _, _ => True
  | Str _, Num _ => False
  | Str s, Str t => String.le s t
  | Str _, NaN => True
  | NaN, NaN => True
  | NaN, _ => False
  end.

Global Instance cell_le_dec : RelDecision cell_le.
Proof. intros [s|x|] [t|y|]; simpl; apply _. Defined.

(** [str(level)] as used in the dummy column names. A number is spelled as
    an integer; pandas spells the levels of a column it holds as floats (a
    number-coded column with a missing entry) with the decimal point, as in
    [1.0]. *)
Definition str (c : cell) : string :=
  match c with
  | Str s => s
  | Num z => pretty z
  | NaN => "nan"
  end.

(** The levels of a column: its distinct non-missing values, sorted
    ([dummy_na=False]: a missing value is not a level). *)
Definition levels (vs : list cell) : list cell :=
  merge_sort cell_le (remove_dups (filter (λ v, v ≠ NaN) vs)).

Definition indicator (lv v : cell) : cell :=
  if decide (v = lv) then Num 1 else Num 0.

(** [pd.get_dummies(series, prefix=p)]: one column [p_level] per level, 1 in
    the rows holding that level and 0 elsewhere. *)
Definition get_dummies (s : series) (prefix : string) : frame :=
  (λ lv, (prefix +:+ "_" +:+ str lv, indicator lv <$> s.2)) <$> levels s.2.

(** [frame.drop(labels, axis=1)]: all columns carrying one of the labels are
    removed; a label carried by no column is a [KeyError]. *)
Definition DataFrame_drop (f : frame) (labels : list string) : result frame :=
  if decide (labels ⊆ f.*1)
  then Ok (filter (λ c : series, c.1 ∉ labels) f)
  else Raise KeyError.

(** [frame.iloc[idx]] (scikit-learn's [_safe_indexing] on a frame): the rows
    at the given positions, in that order; a position past the end is an
    [IndexError]. *)
Definition iloc (f : frame) (idx : list nat) : result frame :=
  if decide (Forall (λ i, i < nrows f) idx)
  then Ok ((λ c : series, (c.1, (λ i, c.2 !!! i) <$> idx)) <$> f)
  else Raise IndexError.

(** ** [_preprocess_data] *)

(** The list assigned to [students.columns]. *)
Definition COLUMNS : list string :=
  [ "Gender"; "Age"; "Address"; "FamilySize"; "ParentCohabStatus";
    "MotherEducation"; "FatherEducation"; "MotherJob"; "FatherJob";
    "SchoolChoiceReason"; "Guardian"; "TravelTime"; "StudyTime"; "Failures";
    "SchoolSup"; "FamilySup"; "ExtraPaidClasses"; "ExtraActivities";
    "Nursery"; "WantsHigherEdu"; "HasInternet"; "Romantic";
    "FamilyRelQuality"; "FreeTime"; "GoOut"; "WorkdayAlcohol";
    "WeekendAlcohol"; "HealthStatus"; "Absences"; "FirstGrade";
    "SecondGrade"; "FinalGrade" ].

(** The body of [_preprocess_data] after the assignment to
    [students.columns]: one statement of the source per line. The two
    [print] calls have no effect on the values and are left out. *)
Definition encode_attributes (students : frame) : result (frame * series * frame) :=
  col ← getattr students "FinalGrade";
  let df := DataFrame col in
  col ← getattr students "Gender";
  let res := Series_map col {[ "F" := 1%Z; "M" := 0%Z ]} in
  let df := concat [Df df; Sr res] in
  col ← getattr students "Age";
  let df := concat [Df df; Sr col] in
  col ← getattr students "Address";
  let res := Series_map col {[ "U" := 1%Z; "R" := 0%Z ]} in
  let df := concat [Df df; Sr res] in
  col ← getattr students "FamilySize";
  let res := Series_map col {[ "LE3" := 1%Z; "GT3" := 0%Z ]} in
  let df := concat [Df df; Sr res] in
  col ← getattr students "ParentCohabStatus";
  let res := Series_map col {[ "T" := 1%Z; "A" := 0%Z ]} in
  let df := concat [Df df; Sr res] in
  col ← getattr students "MotherEducation";
  let df := concat [Df df; Sr col] in
  col ← getattr students "FatherEducation";
  let df := concat [Df df; Sr col] in
  col ← getattr students "MotherJob";
  let res := get_dummies col "MotherJob" in
  let df := concat [Df df; Df res] in
  col ← getattr students "FatherJob";
  let res := get_dummies col "FatherJob" in
  let df := concat [Df df; Df res] in
  col ← getattr students "SchoolChoiceReason";
  let res := get_dummies col "SchoolChoiceReason" in
  let df := concat [Df df; Df res] in
  col ← getattr students "TravelTime";
  let df := concat [Df df; Sr col] in
  col ← getattr students "StudyTime";
  let df := concat [Df df; Sr col] in
  col ← getattr students "Failures";
  let df := concat [Df df; Sr col] in
  col ← getattr students "SchoolSup";
  let res := Series_map col {[ "yes" := 1%Z; "no" := 0%Z ]} in
  let df := concat [Df df; Sr res] in
  col ← getattr students "FamilySup";
  let res := Series_map col {[ "yes" := 1%Z; "no" := 0%Z ]} in
  let df := concat [Df df; Sr res] in
  col ← getattr students "ExtraPaidClasses";
  let res := Series_map col {[ "yes" := 1%Z; "no" := 0%Z ]} in
  let df := concat [Df df; Sr res] in
  col ← getattr students "Nursery";
  let res := Series_map col {[ "yes" := 1%Z; "no" := 0%Z ]} in
  let df := concat [Df df; Sr res] in
  col ← getattr students "WantsHigherEdu";
  let res := Series_map col {[ "yes" := 1%Z; "no" := 0%Z ]} in
  let df := concat [Df df; Sr res] in
  col ← getattr students "HasInternet";
  let res := Series_map col {[ "yes" := 1%Z; "no" := 0%Z ]} in
  let df := concat [Df df; Sr res] in
  col ← getattr students "Romantic";
  let res := Series_map col {[ "yes" := 1%Z; "no" := 0%Z ]} in
  let df := concat [Df df; Sr res] in
  col ← getattr students "FamilyRelQuality";
  let df := concat [Df df; Sr col] in
  col ← getattr students "FreeTime";
  let df := concat [Df df; Sr col] in
  col ← getattr students "GoOut";
  let df := concat [Df df; Sr col] in
  col ← getattr students "WorkdayAlcohol";
  let df := concat [Df df; Sr col] in
  col ← getattr students "WeekendAlcohol";
  let df := concat [Df df; Sr col] in
  col ← getattr students "HealthStatus";
  let df := concat [Df df; Sr col] in
  col ← getattr students "Absences";
  let df := concat [Df df; Sr col] in
  X ← DataFrame_drop df ["FinalGrade"];
  y ← getattr df "FinalGrade";
  mret (X, y, df).

Definition _preprocess_data (students : frame) : result (frame * series * frame) :=
  students ← set_columns students COLUMNS;
  encode_attributes students.

(** ** [train_test_split] *)

(** scikit-learn's [_validate_shuffle_split] (release 0.21 and later) for a
    float [test_size] and [train_size=None]:
    [n_test = ceil(test_size * n_samples)], [n_train = n_samples - n_test],
    and a [ValueError] when [test_size] is outside (0, 1) or the training set
    would be empty. The product is taken over the rationals; for
    [test_size = 0.2] the binary64 product has the same ceiling for every row
    count below 2^53. *)
Definition _validate_shuffle_split (n_samples : nat) (test_size : Q)
    : result (nat * nat) :=
  if Qle_bool test_size 0 || Qle_bool 1 test_size then Raise ValueError else
  let n_test := Qceiling (test_size * inject_Z (Z.of_nat n_samples)) in
  let n_train := (Z.of_nat n_samples - n_test)%Z in
  if decide (Z.of_nat n_samples < n_train + n_test)%Z then Raise ValueError else
  if decide (Z.to_nat n_train = 0) then Raise ValueError else
  Ok (Z.to_nat n_train, Z.to_nat n_test).

(** [train_test_split(df, test_size=..., random_state=...)]: one draw of
    [ShuffleSplit]. [permutation n] stands for the seeded generator's
    [rng.permutation(n_samples)]; the first [n_test] positions of it are the
    validation rows and the next [n_train] the training rows. *)
Definition train_test_split (permutation : nat → list nat)
    (df : frame) (test_size : Q) : result (frame * frame) :=
  let n_samples := nrows df in
  '(n_train, n_test) ← _validate_shuffle_split n_samples test_size;
  let ind_test := take n_test (permutation n_samples) in
  let ind_train := take n_train (drop n_test (permutation n_samples)) in
  train ← iloc df ind_train;
  test ← iloc df ind_test;
  mret (train, test).

(** The notebook's call. *)
Definition split_cell (permutation : nat → list nat) (df : frame)
    : result (frame * frame) :=
  train_test_split permutation df (2 # 10).

(** ** The cells of the notebook *)

(** Calls that leave the kernel for a managed service. *)
Inductive call : Type :=
  | GetExecutionRole
  | DefaultBucket
  | ReadCsv
  | S3Upload (file : string)
  | S3Download (local_path : string)
  | RunPreTrainingBias
  | TunerFit
  | DescribeTuningJob
  | TunerDeploy
  | RunPostTrainingBias
  | RunExplainability
  | DeleteModel
  | DeleteEndpoint.

Global Instance call_eq_dec : EqDecision call.
Proof. solve_decision. Defined.

(** A statement binds names from an expression over the names it reads, or
    performs a remote call whose arguments read some names. *)
Inductive stmt : Type :=
  | Assign (targets : list string) (reads : list string)
  | Remote (c : call) (targets : list string) (reads : list string).

(** Kernel state: the names bound so far and the remote calls made so far. *)
Record kernel : Type := Kernel {
  bound : gset string;
  trace : list call
}.

Definition exec_stmt (k : kernel) (s : stmt) : result kernel :=
  match s with
  | Assign targets reads =>
      if decide (Forall (λ x, x ∈ bound k) reads)
      then Ok (Kernel (list_to_set targets ∪ bound k) (trace k))
      else Raise NameError
  | Remote c targets reads =>
      if decide (Forall (λ x, x ∈ bound k) reads)
      then Ok (Kernel (list_to_set targets ∪ bound k) (trace k ++ [c]))
      else Raise NameError
  end.

Fixpoint exec (k : kernel) (prog : list stmt) : result kernel :=
  match prog with
  | [] => Ok k
  | s :: prog => k ← exec_stmt k s; exec k prog
  end.

(** The code cells, top to bottom, one statement of the source per entry
    (imports bind the imported name). *)
Definition cell_setup : list stmt :=
  [ Assign ["sagemaker"] []; Assign ["boto3"] []; Assign ["pd"] [];
    Assign ["session"] ["sagemaker"];
    Remote GetExecutionRole ["role"] ["sagemaker"];
    Remote DefaultBucket ["bucket"] ["session"];
    Assign ["prefix"] [] ].

Definition cell_load : list stmt :=
  [ Remote ReadCsv ["data"] ["pd"] ].

Definition cell_preprocess : list stmt :=
  [ Assign ["_preprocess_data"] ["pd"];
    Assign ["X"; "y"; "df"] ["_preprocess_data"; "data"] ].

Definition cell_split : list stmt :=
  [ Assign ["train_test_split"] [];
    Assign ["train_data"; "validation_data"] ["train_test_split"; "df"] ].

Definition cell_upload : list stmt :=
  [ Assign ["S3Uploader"] []; Assign ["TrainingInput"] [];
    Remote (S3Upload "train_data.csv") ["train_data_s3_path"]
      ["train_data"; "S3Uploader"; "bucket"; "prefix"];
    Remote (S3Upload "validation_data.csv") ["validation_data_s3_path"]
      ["validation_data"; "S3Uploader"; "bucket"; "prefix"];
    Assign ["HTML"] [];
    Assign ["url"] ["bucket"; "session"; "prefix"] ].

Definition cell_processor : list stmt :=
  [ Assign ["clarify"] [];
    Assign ["pretraining_bias_instance_count"] [];
    Assign ["pretraining_bias_instance_type"] [];
    Assign ["clarify_processor"]
      ["clarify"; "role"; "pretraining_bias_instance_count";
       "pretraining_bias_instance_type"; "session"] ].

Definition cell_data_config : list stmt :=
  [ Assign ["bias_pretrain_report_output_folder"] [];
    Assign ["bias_pretrain_report_output_path"] ["bucket"; "prefix"];
    Assign ["data_config"]
      ["clarify"; "train_data_s3_path"; "bias_pretrain_report_output_path";
       "train_data"] ].

Definition cell_bias_config : list stmt :=
  [ Assign ["data_bias_config"] ["clarify"] ].

Definition cell_pre_training_bias : list stmt :=
  [ Remote RunPreTrainingBias []
      ["clarify_processor"; "data_config"; "data_bias_config"] ].

Definition cell_pre_training_report : list stmt :=
  [ Assign ["HTML"] [];
    Assign ["url"]
      ["bucket"; "session"; "prefix"; "bias_pretrain_report_output_folder"];
    Assign ["S3Downloader"] [];
    Assign ["local_databias_report_path"] [];
    Remote (S3Download "./pretraining_bias_reports") []
      ["S3Downloader"; "local_databias_report_path";
       "bias_pretrain_report_output_path"; "session"] ].

Definition cell_inputs : list stmt :=
  [ Assign ["S3Uploader"] []; Assign ["TrainingInput"] [];
    Assign ["train_input"] ["TrainingInput"; "train_data_s3_path"];
    Assign ["validation_input"] ["TrainingInput"; "validation_data_s3_path"] ].

Definition cell_estimator : list stmt :=
  [ Assign ["retrieve"] []; Assign ["Estimator"] [];
    Assign ["container"] ["retrieve"; "session"];
    Assign ["training_instance_count"] [];
    Assign ["training_instance_type"] [];
    Assign ["xgb"]
      ["Estimator"; "container"; "role"; "training_instance_count";
       "training_instance_type"; "session"];
    Assign [] ["xgb"] ].

Definition cell_tuner : list stmt :=
  [ Assign ["IntegerParameter"; "CategoricalParameter"; "ContinuousParameter";
            "HyperparameterTuner"] [];
    Assign ["hyperparameter_ranges"] ["ContinuousParameter"; "IntegerParameter"];
    Assign ["objective_metric_name"] [];
    Assign ["tuner"]
      ["HyperparameterTuner"; "xgb"; "objective_metric_name";
       "hyperparameter_ranges"];
    Remote TunerFit [] ["tuner"; "train_input"; "validation_input"] ].

Definition cell_tuning_status : list stmt :=
  [ Remote DescribeTuningJob [] ["boto3"; "tuner"] ].

Definition cell_deploy : list stmt :=
  [ Assign ["xgb_model_name"] [];
    Assign ["predictor_instance_count"] [];
    Assign ["predictor_instance_type"] [];
    Remote TunerDeploy ["xgb_predictor"]
      ["tuner"; "predictor_instance_count"; "predictor_instance_type";
       "xgb_model_name"];
    Assign [] ["xgb_predictor"] ].

Definition cell_headers : list stmt :=
  [ Assign [] ["train_data"] ].

Definition cell_post_training_bias : list stmt :=
  [ Assign ["bias_posttrain_report_output_folder"] [];
    Assign ["bias_posttrain_report_output_path"]
      ["bucket"; "prefix"; "bias_posttrain_report_output_folder"];
    Assign ["bias_posttrain_data_config"]
      ["clarify"; "train_data_s3_path"; "bias_posttrain_report_output_path";
       "train_data"];
    Assign ["data_bias_config"] ["clarify"];
    Assign ["posttraining_bias_instance_count"] [];
    Assign ["posttraining_bias_instance_type"] [];
    Assign ["model_config"]
      ["clarify"; "xgb_model_name"; "posttraining_bias_instance_type";
       "posttraining_bias_instance_count"];
    Assign ["predictions_config"] ["clarify"];
    Remote RunPostTrainingBias []
      ["clarify_processor"; "bias_posttrain_data_config"; "data_bias_config";
       "model_config"; "predictions_config"] ].

Definition cell_post_training_report : list stmt :=
  [ Assign ["HTML"] [];
    Assign ["url"]
      ["bucket"; "session"; "prefix"; "bias_posttrain_report_output_folder"];
    Assign ["S3Downloader"] [];
    Assign ["local_posttrain_bias_report_path"] [];
    Remote (S3Download "./posttraining_bias_reports") []
      ["S3Downloader"; "local_posttrain_bias_report_path";
       "bias_posttrain_report_output_path"; "session"] ].

Definition cell_explainability_config : list stmt :=
  [ Assign ["test_features"] ["validation_data"];
    Assign ["explainability_report_output_path"] ["bucket"; "prefix"];
    Assign ["explainability_data_config"]
      ["clarify"; "train_data_s3_path"; "explainability_report_output_path";
       "train_data"];
    Assign ["shap_config"] ["clarify"; "test_features"] ].

Definition cell_explainability : list stmt :=
  [ Remote RunExplainability []
      ["clarify_processor"; "explainability_data_config"; "model_config";
       "shap_config"] ].

Definition cell_explainability_report : list stmt :=
  [ Assign ["local_explainability_report_path"] [];
    Remote (S3Download "./explainability_reports") []
      ["S3Downloader"; "local_explainability_report_path";
       "explainability_report_output_path"; "session"] ].

Definition cell_cleanup : list stmt :=
  [ Remote DeleteModel [] ["xgb_predictor"];
    Remote DeleteEndpoint [] ["xgb_predictor"] ].

Definition notebook : list (list stmt) :=
  [ cell_setup; cell_load; cell_preprocess; cell_split; cell_upload;
    cell_processor; cell_data_config; cell_bias_config;
    cell_pre_training_bias; cell_pre_training_report; cell_inputs;
    cell_estimator; cell_tuner; cell_tuning_status; cell_deploy;
    cell_headers; cell_post_training_bias; cell_post_training_report;
    cell_explainability_config; cell_explainability;
    cell_explainability_report; cell_cleanup ].

(** Running every cell from a fresh kernel, top to bottom. *)
Definition run_all : result kernel :=
  exec (Kernel ∅ []) (mjoin notebook).

(** * Vocabulary of the statements *)

(** The values of the input column at position [i]. *)
Definition column (students : frame) (i : nat) : list cell := (students.*2) !!! i.

(** Position of a name in the list assigned to [students.columns]. *)
Definition position (name : string) : nat :=
  from_option fst 0 (list_find (λ x, x = name) COLUMNS).

(** The attribute columns [encode_attributes] assembles, in closed form over
    the input columns [ds] ([encode_attributes_eq] below relates it to the
    code). *)
Definition features (ds : list (list cell)) : frame :=
  [ ("Gender", map_cell {[ "F" := 1%Z; "M" := 0%Z ]} <$> ds !!! 0);
    ("Age", ds !!! 1);
    ("Address", map_cell {[ "U" := 1%Z; "R" := 0%Z ]} <$> ds !!! 2);
    ("FamilySize", map_cell {[ "LE3" := 1%Z; "GT3" := 0%Z ]} <$> ds !!! 3);
    ("ParentCohabStatus", map_cell {[ "T" := 1%Z; "A" := 0%Z ]} <$> ds !!! 4);
    ("MotherEducation", ds !!! 5);
    ("FatherEducation", ds !!! 6) ]
  ++ get_dummies ("MotherJob", ds !!! 7) "MotherJob"
  ++ get_dummies ("FatherJob", ds !!! 8) "FatherJob"
  ++ get_dummies ("SchoolChoiceReason", ds !!! 9) "SchoolChoiceReason"
  ++ [ ("TravelTime", ds !!! 11);
       ("StudyTime", ds !!! 12);
       ("Failures", ds !!! 13);
       ("SchoolSup", map_cell {[ "yes" := 1%Z; "no" := 0%Z ]} <$> ds !!! 14);
       ("FamilySup", map_cell {[ "yes" := 1%Z; "no" := 0%Z ]} <$> ds !!! 15);
       ("ExtraPaidClasses", map_cell {[ "yes" := 1%Z; "no" := 0%Z ]} <$> ds !!! 16);
       ("Nursery", map_cell {[ "yes" := 1%Z; "no" := 0%Z ]} <$> ds !!! 18);
       ("WantsHigherEdu", map_cell {[ "yes" := 1%Z; "no" := 0%Z ]} <$> ds !!! 19);
       ("HasInternet", map_cell {[ "yes" := 1%Z; "no" := 0%Z ]} <$> ds !!! 20);
       ("Romantic", map_cell {[ "yes" := 1%Z; "no" := 0%Z ]} <$> ds !!! 21);
       ("FamilyRelQuality", ds !!! 22);
       ("FreeTime", ds !!! 23);
       ("GoOut", ds !!! 24);
       ("WorkdayAlcohol", ds !!! 25);
       ("WeekendAlcohol", ds !!! 26);
       ("HealthStatus", ds !!! 27);
       ("Absences", ds !!! 28) ].

(** The binary attributes with their value encoded as 1 and as 0. *)
Definition binary_codes : list (string * string * string) :=
  [ ("Gender", "F", "M"); ("Address", "U", "R"); ("FamilySize", "LE3", "GT3");
    ("ParentCohabStatus", "T", "A"); ("SchoolSup", "yes", "no");
    ("FamilySup", "yes", "no"); ("ExtraPaidClasses", "yes", "no");
    ("Nursery", "yes", "no"); ("WantsHigherEdu", "yes", "no");
    ("HasInternet", "yes", "no"); ("Romantic", "yes", "no") ].

Definition numeric_attributes : list string :=
  [ "Age"; "MotherEducation"; "FatherEducation"; "TravelTime"; "StudyTime";
    "Failures"; "FamilyRelQuality"; "FreeTime"; "GoOut"; "WorkdayAlcohol";
    "WeekendAlcohol"; "HealthStatus"; "Absences" ].

Definition nominal_attributes : list string :=
  [ "MotherJob"; "FatherJob"; "SchoolChoiceReason" ].

(** Every value of a dictionary-encoded column is a key of its dictionary. *)
Definition binary_values_in_domain (students : frame) : Prop :=
  ∀ name one zero p,
    (name, one, zero) ∈ binary_codes → COLUMNS !! p = Some name →
    ∀ v, v ∈ column students p → v = Str one ∨ v = Str zero.

(** The indicator columns of a nominal attribute: the columns whose name
    starts with the attribute's name and an underscore. *)
Definition indicator_group (name : string) (X : frame) : frame :=
  filter (λ c : series, String.prefix (name +:+ "_") c.1) X.

(** One-hot expansion of the nominal attributes in [X]. [occurring] says
    which values of the input column count: the group has one column per
    distinct such value, named after it, and a row holding such a value has
    1 in exactly one column of the group and 0 in the others. *)
Definition one_hot (occurring : cell → Prop) (students X : frame) : Prop :=
  ∀ name p, name ∈ nominal_attributes → COLUMNS !! p = Some name →
    ∃ lvls, NoDup lvls ∧
      (∀ v, v ∈ lvls ↔ v ∈ column students p ∧ occurring v) ∧
      (indicator_group name X).*1 = (λ v, name +:+ "_" +:+ str v) <$> lvls ∧
      ∀ i v, column students p !! i = Some v → occurring v →
        ∃ j, j < length lvls ∧
          ∀ j' c, indicator_group name X !! j' = Some c →
            c.2 !! i = Some (if decide (j' = j) then Num 1 else Num 0).

(** The outcome of the split cell on a frame of [n] rows: the two sizes, the
    unchanged headers, and the row positions [ind_train] and [ind_test] the
    two frames are read from, which together are the positions [0 .. n-1],
    each once. *)
Definition split_ok (permutation : nat → list nat) (df : frame) (n : nat) : Prop :=
  ∃ train test, split_cell permutation df = Ok (train, test) ∧
    nrows test = Z.to_nat (Qceiling ((2 # 10) * inject_Z (Z.of_nat n))) ∧
    nrows train = n - nrows test ∧
    train.*1 = df.*1 ∧ test.*1 = df.*1 ∧
    ∃ ind_train ind_test,
      rows train = row df <$> ind_train ∧
      rows test = row df <$> ind_test ∧
      NoDup (ind_train ++ ind_test) ∧
      ind_train ++ ind_test ≡ₚ seq 0 n ∧
      rows train ++ rows test ≡ₚ rows df.

(** Both calls are made, and every [a] is made before every [b]. *)
Definition submitted_before (a b : call) (tr : list call) : Prop :=
  a ∈ tr ∧ b ∈ tr ∧ ∀ i j, tr !! i = Some a → tr !! j = Some b → i < j.

Definition uploads : list call :=
  [ S3Upload "train_data.csv"; S3Upload "validation_data.csv" ].

Definition managed_jobs : list call :=
  [ RunPreTrainingBias; TunerFit; TunerDeploy; RunPostTrainingBias;
    RunExplainability ].

(** ** Concrete inputs *)

(** A frame of 32 columns and two rows. *)
Definition sample : frame :=
  [ ("sex", [Str "F"; Str "M"]); ("age", [Num 18; Num 17]);
    ("address", [Str "U"; Str "R"]); ("famsize", [Str "GT3"; Str "LE3"]);
    ("Pstatus", [Str "A"; Str "T"]); ("Medu", [Num 4; Num 1]);
    ("Fedu", [Num 4; Num 1]); ("Mjob", [Str "at_home"; Str "teacher"]);
    ("Fjob", [Str "teacher"; Str "other"]);
    ("reason", [Str "course"; Str "course"]);
    ("guardian", [Str "mother"; Str "father"]);
    ("traveltime", [Num 2; Num 1]); ("studytime", [Num 2; Num 3]);
    ("failures", [Num 0; Num 1]); ("schoolsup", [Str "yes"; Str "no"]);
    ("famsup", [Str "no"; Str "yes"]); ("paid", [Str "no"; Str "yes"]);
    ("activities", [Str "no"; Str "yes"]); ("nursery", [Str "yes"; Str "no"]);
    ("higher", [Str "yes"; Str "yes"]); ("internet", [Str "no"; Str "yes"]);
    ("romantic", [Str "no"; Str "yes"]); ("famrel", [Num 4; Num 5]);
    ("freetime", [Num 3; Num 2]); ("goout", [Num 4; Num 3]);
    ("Dalc", [Num 1; Num 2]); ("Walc", [Num 1; Num 3]);
    ("health", [Num 3; Num 5]); ("absences", [Num 6; Num 4]);
    ("G1", [Num 5; Num 7]); ("G2", [Num 6; Num 8]); ("G3", [Num 6; Num 10]) ]%Z.

(** One student whose mother's job was left empty in the file. *)
Definition missing_job : frame :=
  [ ("sex", [Str "F"]); ("age", [Num 18]); ("address", [Str "U"]);
    ("famsize", [Str "GT3"]); ("Pstatus", [Str "A"]); ("Medu", [Num 4]);
    ("Fedu", [Num 4]); ("Mjob", [NaN]); ("Fjob", [Str "teacher"]);
    ("reason", [Str "course"]); ("guardian", [Str "mother"]);
    ("traveltime", [Num 2]); ("studytime", [Num 2]); ("failures", [Num 0]);
    ("schoolsup", [Str "yes"]); ("famsup", [Str "no"]); ("paid", [Str "no"]);
    ("activities", [Str "no"]); ("nursery", [Str "yes"]);
    ("higher", [Str "yes"]); ("internet", [Str "no"]);
    ("romantic", [Str "no"]); ("famrel", [Num 4]); ("freetime", [Num 3]);
    ("goout", [Num 4]); ("Dalc", [Num 1]); ("Walc", [Num 1]);
    ("health", [Num 3]); ("absences", [Num 6]); ("G1", [Num 5]);
    ("G2", [Num 6]); ("G3", [Num 6]) ]%Z.

(** A file with a single student. *)
Definition one_student : frame :=
  [ ("sex", [Str "M"]); ("age", [Num 17]); ("address", [Str "R"]);
    ("famsize", [Str "LE3"]); ("Pstatus", [Str "T"]); ("Medu", [Num 1]);
    ("Fedu", [Num 1]); ("Mjob", [Str "teacher"]); ("Fjob", [Str "other"]);
    ("reason", [Str "course"]); ("guardian", [Str "father"]);
    ("traveltime", [Num 1]); ("studytime", [Num 3]); ("failures", [Num 1]);
    ("schoolsup", [Str "no"]); ("famsup", [Str "yes"]); ("paid", [Str "yes"]);
    ("activities", [Str "yes"]); ("nursery", [Str "no"]);
    ("higher", [Str "yes"]); ("internet", [Str "yes"]);
    ("romantic", [Str "yes"]); ("famrel", [Num 5]); ("freetime", [Num 2]);
    ("goout", [Num 3]); ("Dalc", [Num 2]); ("Walc", [Num 3]);
    ("health", [Num 5]); ("absences", [Num 4]); ("G1", [Num 7]);
    ("G2", [Num 8]); ("G3", [Num 10]) ]%Z.

(** The shuffle that leaves the rows where they are. *)
Definition identity_permutation (n : nat) : list nat := seq 0 n.

(** * The cells after the split *)

(** [frame.iloc[i]] with one position: that row, or an [IndexError] past the
    end. *)
Definition iloc_row (f : frame) (i : nat) : result (list cell) :=
  if decide (i < nrows f) then Ok (row f i) else Raise IndexError.

(** The arguments the notebook gives to [clarify.DataConfig] and
    [clarify.BiasConfig]. *)
Record DataConfig : Type := {
  s3_data_input_path : string;
  s3_output_path : string;
  label : string;
  headers : list string;
  dataset_type : string
}.

Record BiasConfig : Type := {
  label_values_or_threshold : list Z;
  facet_name : string;
  group_name : string
}.

Definition prefix : string := "sagemaker/student-data-xgb".

(** The data configuration of the pre-training bias job;
    [headers=train_data.columns.to_list()]. *)
Definition data_config (bucket train_data_s3_path : string) (train_data : frame)
    : DataConfig :=
  {| s3_data_input_path := train_data_s3_path;
     s3_output_path :=
       "s3://" +:+ bucket +:+ "/" +:+ prefix +:+ "/clarify-pretrain-bias";
     label := "FinalGrade";
     headers := train_data.*1;
     dataset_type := "text/csv" |}.

Definition data_bias_config : BiasConfig :=
  {| label_values_or_threshold := [15; 16; 17; 18; 19; 20]%Z;
     facet_name := "Gender";
     group_name := "ParentCohabStatus" |}.

(** The baseline of [clarify.SHAPConfig]:
    [test_features = validation_data.drop(["FinalGrade"], axis=1)] and
    [baseline=[test_features.iloc[0].values.tolist()]]. *)
Definition shap_baseline (validation_data : frame) : result (list (list cell)) :=
  test_features ← DataFrame_drop validation_data ["FinalGrade"];
  r ← iloc_row test_features 0;
  mret [r].

(** ** Vocabulary of the further statements *)

(** Positions of the input columns no statement of [_preprocess_data]
    reads: Guardian, ExtraActivities, FirstGrade, SecondGrade. *)
Definition unread_positions : list nat := [10; 17; 29; 30].

(** The inverse lookup of a two-key encoding dictionary. *)
Definition decode_cell (one zero : string) (w : cell) : cell :=
  match w with
  | Num 1 => Str one
  | Num 0 => Str zero
  | _ => NaN
  end.

(** Number of distinct non-missing values of a column. *)
Definition distinct_values (l : list cell) : nat :=
  length (remove_dups (filter (λ v, v ≠ NaN) l)).

(** A column of strings, some possibly missing. *)
Definition text_or_missing (l : list cell) : Prop :=
  Forall (λ v, v = NaN ∨ ∃ s, v = Str s) l.

(** Which nominal attribute a header is an indicator of (1, 2, 3), or 0. *)
Definition kind (h : string) : nat :=
  if String.prefix "MotherJob_" h then 1
  else if String.prefix "FatherJob_" h then 2
  else if String.prefix "SchoolChoiceReason_" h then 3
  else 0.

(** The frame of the rows at the given positions ([iloc] within range). *)
Definition rows_at (f : frame) (idx : list nat) : frame :=
  (λ c : series, (c.1, (λ i, c.2 !!! i) <$> idx)) <$> f.

(** The remote calls a list of statements makes, in order. *)
Definition calls (prog : list stmt) : list call :=
  omap (λ s, match s with Remote c _ _ => Some c | Assign _ _ => None end) prog.

(** Every submission of [b] comes after a submission of [a]. *)
Definition only_after (a b : call) (tr : list call) : Prop :=
  ∀ j, tr !! j = Some b → ∃ i, i < j ∧ tr !! i = Some a.

(** The names of [G] are bound only once [a] has been called. *)
Definition witnessed (a : call) (G : list string) (k : kernel) : Prop :=
  ∀ x, x ∈ G → x ∈ bound k → a ∈ trace k.

(** A statement keeps [witnessed a G]: it is the call [a], or it binds no
    name of [G], or it reads one. *)
Definition guarded (a : call) (G : list string) (s : stmt) : bool :=
  match s with
  | Assign targets reads =>
      bool_decide (Forall (λ x, x ∉ G) targets)
      || bool_decide (Exists (λ x, x ∈ G) reads)
  | Remote c targets reads =>
      bool_decide (c = a)
      || bool_decide (Forall (λ x, x ∉ G) targets)
      || bool_decide (Exists (λ x, x ∈ G) reads)
  end.

(** A statement that calls [b] reads a name of [G]. *)
Definition needs (b : call) (G : list string) (s : stmt) : bool :=
  match s with
  | Remote c _ reads =>
      if decide (c = b) then bool_decide (Exists (λ x, x ∈ G) reads) else true
  | Assign _ _ => true
  end.

(** A cell run as a whole respects the order of [a] and [b] when each of
    its statements does, or when it calls [a] and never [b]. *)
Definition block_respects (a b : call) (G : list string) (block : list stmt) : bool :=
  forallb (λ s, guarded a G s && needs b G s) block
  || (bool_decide (a ∈ calls block) && bool_decide (b ∉ calls block)).

(** Names that are bound only from the path of the uploaded training data,
    of the uploaded validation data, and from the deployment cell. *)
Definition after_train_upload : list string :=
  [ "train_data_s3_path"; "data_config"; "train_input";
    "bias_posttrain_data_config"; "explainability_data_config" ].

Definition after_validation_upload : list string :=
  [ "validation_data_s3_path"; "validation_input" ].

Definition after_deploy : list string :=
  [ "xgb_model_name"; "xgb_predictor"; "model_config" ].

(** ** Further concrete inputs *)

(** The sample with another guardian column. *)
Definition sample_other_guardian : frame :=
  <[10 := ("who", [Str "other"; Str "other"])]> sample.

(** The sample with the mother's job of the second student missing. *)
Definition sample_missing_job : frame :=
  <[7 := ("Mjob", [Str "teacher"; NaN])]> sample.

(** The sample with the mother's jobs written "1" and 1. *)
Definition sample_mixed_job : frame :=
  <[7 := ("Mjob", [Str "1"; Num 1])]> sample.

(** The sample with its two students in the other order. *)
Definition sample_reversed : frame :=
  (λ c : series, (c.1, reverse c.2)) <$> sample.

(** * Properties *)

(** ** Evaluating [_preprocess_data] *)

Ltac in_list := solve [repeat constructor].

Ltac cases_of H :=
  repeat match type of H with
    | _ ∈ _ :: _ => apply elem_of_cons in H as [H|H]
    | _ ∈ [] => exfalso; exact (proj1 (elem_of_nil _) H)
    end.

Lemma bind_Ok {A B} (a : A) (k : A → result B) : Ok a ≫= k = k a.
Proof. reflexivity. Qed.

Lemma concat_series (df : frame) (s : series) : concat [Df df; Sr s] = df ++ [s].
Proof. reflexivity. Qed.

Lemma concat_frame (df f : frame) : concat [Df df; Df f] = df ++ f.
Proof. unfold concat; simpl. by rewrite app_nil_r. Qed.

Lemma filter_all {A} (P : A → Prop) `{∀ x, Decision (P x)} (l : list A) :
  Forall P l → filter P l = l.
Proof.
  induction 1 as [|x l HP _ IH]; [done|]. by rewrite filter_cons_True, IH.
Qed.

Lemma filter_none {A} (P : A → Prop) `{∀ x, Decision (P x)} (l : list A) :
  Forall (λ x, ¬ P x) l → filter P l = [].
Proof.
  induction 1 as [|x l HP _ IH]; [done|]. by rewrite filter_cons_False, IH.
Qed.

(** After the relabelling every name of [COLUMNS] is an attribute of the
    frame, and it is the column at that position. *)
Lemma getattr_zip_COLUMNS (ds : list (list cell)) (i : nat) (name : string) :
  length ds = 32 → COLUMNS !! i = Some name →
  getattr (zip COLUMNS ds) name = Ok (name, ds !!! i).
Proof.
  intros Hlen Hi.
  do 32 (destruct ds as [|? ds]; [discriminate Hlen|]).
  destruct ds; [|discriminate Hlen]. clear Hlen.
  do 32 (destruct i as [|i]; [injection Hi as <-; reflexivity|]).
  discriminate Hi.
Qed.

Lemma position_spec (p : nat) (name : string) :
  COLUMNS !! p = Some name → position name = p.
Proof.
  intros Hp.
  do 32 (destruct p as [|p]; [injection Hp as <-; reflexivity|]).
  discriminate Hp.
Qed.

Ltac getattr_step :=
  match goal with
  | |- context [getattr (zip COLUMNS ?ds) ?name] =>
      let i := eval vm_compute in (position name) in
      rewrite (getattr_zip_COLUMNS ds i name) by done;
      rewrite bind_Ok; cbv beta zeta
  end.

(** Names of dummy columns start with the prefix and an underscore. *)
Lemma get_dummies_names (s : series) (p : string) :
  Forall (λ c : series, ∃ x, c.1 = p +:+ "_" +:+ x) (get_dummies s p).
Proof.
  unfold get_dummies. apply Forall_fmap, Forall_forall. intros lv _. simpl. eauto.
Qed.

Lemma get_dummies_not_named (s : series) (p name : string) :
  (∀ x, p +:+ "_" +:+ x ≠ name) →
  Forall (λ c : series, c.1 ≠ name) (get_dummies s p).
Proof.
  intros Hne. eapply Forall_impl; [apply get_dummies_names|].
  intros c [x ->]. apply Hne.
Qed.

Ltac not_dummy := intros ?; simpl; discriminate.

(** No built attribute column carries one of these five names. *)
Lemma features_not_named (ds : list (list cell)) (name : string) :
  name ∈ ["FinalGrade"; "FirstGrade"; "SecondGrade"; "ExtraActivities"; "Guardian"] →
  Forall (λ c : series, c.1 ≠ name) (features ds).
Proof.
  intros Hname. unfold features.
  repeat apply Forall_app_2;
    try (apply get_dummies_not_named; cases_of Hname; subst; not_dummy).
  all: repeat constructor; simpl; cases_of Hname; subst; discriminate.
Qed.

Lemma features_lacks (ds : list (list cell)) (name : string) :
  name ∈ ["FinalGrade"; "FirstGrade"; "SecondGrade"; "ExtraActivities"; "Guardian"] →
  name ∉ (features ds).*1.
Proof.
  intros Hname (c & -> & Hc)%list_elem_of_fmap.
  assert (Hf := features_not_named ds c.1 Hname).
  rewrite Forall_forall in Hf. by eapply Hf.
Qed.

Lemma drop_first_column (name : string) (y : list cell) (rest : frame) :
  Forall (λ c : series, c.1 ≠ name) rest →
  DataFrame_drop ((name, y) :: rest) [name] = Ok rest.
Proof.
  intros Hrest. unfold DataFrame_drop.
  rewrite decide_True by (intros x ->%list_elem_of_singleton; simpl; left).
  rewrite filter_cons_False by (simpl; intros Hn; apply Hn; left).
  rewrite filter_all; [done|].
  eapply Forall_impl; [exact Hrest|]. intros c Hc ?%list_elem_of_singleton. done.
Qed.

Lemma getattr_first_column (name : string) (y : list cell) (rest : frame) :
  Forall (λ c : series, c.1 ≠ name) rest →
  getattr ((name, y) :: rest) name = Ok (name, y).
Proof.
  intros Hrest. unfold getattr.
  rewrite filter_cons_True by done.
  rewrite filter_none; [done|].
  eapply Forall_impl; [exact Hrest|]. by intros c Hc.
Qed.

(** The body run statement by statement on a relabelled frame. *)
Lemma encode_attributes_eq (ds : list (list cell)) :
  length ds = 32 →
  encode_attributes (zip COLUMNS ds) =
    Ok (features ds, ("FinalGrade", ds !!! 31), ("FinalGrade", ds !!! 31) :: features ds).
Proof.
  intros Hlen. unfold encode_attributes.
  repeat getattr_step.
  rewrite ?concat_series, ?concat_frame. unfold DataFrame, Series_map.
  cbn [fst snd]. rewrite <- !app_assoc. cbn [app].
  change (_ :: _ :: _ :: _ :: _ :: _ :: _ :: _ :: ?l)
    with (("FinalGrade", ds !!! 31) :: features ds).
  rewrite drop_first_column by (apply features_not_named; in_list).
  rewrite bind_Ok.
  rewrite getattr_first_column by (apply features_not_named; in_list).
  reflexivity.
Qed.

Lemma set_columns_eq (students : frame) (names : list string) :
  length students = length names →
  set_columns students names = Ok (zip names (students.*2)).
Proof. intros Hlen. unfold set_columns. by rewrite decide_True. Qed.

Lemma preprocess_data_eq (students : frame) :
  length students = 32 →
  _preprocess_data students =
    Ok (features (students.*2), ("FinalGrade", column students 31),
        ("FinalGrade", column students 31) :: features (students.*2)).
Proof.
  intros Hlen. unfold _preprocess_data.
  rewrite set_columns_eq by done. rewrite bind_Ok.
  apply encode_attributes_eq. by rewrite length_fmap.
Qed.

(** The assignment to [students.columns] is the only statement that can
    raise. *)
Lemma preprocess_data_raises (students : frame) :
  length students ≠ 32 → _preprocess_data students = Raise ValueError.
Proof.
  intros Hlen. unfold _preprocess_data, set_columns.
  by rewrite decide_False.
Qed.

Ltac skip_dummies :=
  unfold features, getattr; rewrite !filter_app;
  rewrite !(filter_none _ (get_dummies _ _))
    by (apply get_dummies_not_named; not_dummy).

Lemma getattr_features_numeric (ds : list (list cell)) (name : string) :
  name ∈ numeric_attributes →
  getattr (features ds) name = Ok (name, ds !!! position name).
Proof.
  intros Hname. unfold numeric_attributes in Hname.
  cases_of Hname; subst; skip_dummies; reflexivity.
Qed.

Lemma getattr_features_binary (ds : list (list cell)) (name one zero : string) :
  (name, one, zero) ∈ binary_codes →
  getattr (features ds) name =
    Ok (name, map_cell {[ one := 1%Z; zero := 0%Z ]} <$> ds !!! position name).
Proof.
  intros Hname. unfold binary_codes in Hname.
  cases_of Hname; simplify_eq; skip_dummies; reflexivity.
Qed.

Lemma binary_codes_distinct (name one zero : string) :
  (name, one, zero) ∈ binary_codes → one ≠ zero.
Proof.
  unfold binary_codes. intros H. cases_of H; simplify_eq; discriminate.
Qed.

(** ** Dictionary encoding *)

Lemma dict_lookup (one zero s : string) :
  ({[ one := 1%Z; zero := 0%Z ]} : gmap string Z) !! s =
    if decide (s = one) then Some 1%Z
    else if decide (s = zero) then Some 0%Z else None.
Proof. repeat case_decide; by simplify_map_eq. Qed.

Lemma map_cell_one (one zero : string) (v : cell) :
  one ≠ zero →
  map_cell {[ one := 1%Z; zero := 0%Z ]} v = Num 1 ↔ v = Str one.
Proof.
  intros Hne. destruct v as [s|z|]; unfold map_cell; [|done..].
  rewrite dict_lookup. repeat case_decide; naive_solver.
Qed.

Lemma map_cell_zero (one zero : string) (v : cell) :
  one ≠ zero →
  map_cell {[ one := 1%Z; zero := 0%Z ]} v = Num 0 ↔ v = Str zero.
Proof.
  intros Hne. destruct v as [s|z|]; unfold map_cell; [|done..].
  rewrite dict_lookup. repeat case_decide; naive_solver.
Qed.

Lemma map_cell_other (one zero : string) (v : cell) :
  v ≠ Str one → v ≠ Str zero →
  map_cell {[ one := 1%Z; zero := 0%Z ]} v = NaN.
Proof.
  intros H1 H0. destruct v as [s|z|]; unfold map_cell; [|done..].
  rewrite dict_lookup. repeat case_decide; naive_solver.
Qed.

(** C1: in the feature frame each of the eleven dictionary-encoded binary
    attributes is, row by row, 1 exactly where the input column holds the
    first key of its dictionary ("F", "U", "LE3", "T", "yes") and 0 exactly
    where it holds the second ("M", "R", "GT3", "A", "no"). *)
Theorem binary_attributes_encoded (students : frame) :
  length students = 32 →
  ∃ X y df, _preprocess_data students = Ok (X, y, df) ∧
    ∀ name one zero p,
      (name, one, zero) ∈ binary_codes → COLUMNS !! p = Some name →
      ∃ out, getattr X name = Ok (name, out) ∧
        length out = length (column students p) ∧
        ∀ i v, column students p !! i = Some v →
          ∃ w, out !! i = Some w ∧
            (w = Num 1 ↔ v = Str one) ∧ (w = Num 0 ↔ v = Str zero).
Proof.
  intros Hlen. eexists _, _, _. split; [by apply preprocess_data_eq|].
  intros name one zero p Hcode Hp.
  eexists. split; [by apply getattr_features_binary|].
  rewrite (position_spec p name Hp). fold (column students p).
  split; [by rewrite length_fmap|].
  intros i v Hv. eexists. split.
  { rewrite list_lookup_fmap, Hv. reflexivity. }
  pose proof (binary_codes_distinct _ _ _ Hcode).
  split; [by apply map_cell_one|by apply map_cell_zero].
Qed.

Lemma binary_attributes_encoded_witness :
  length sample = 32 ∧
  ∃ out, getattr (features (sample.*2)) "Gender" = Ok ("Gender", out) ∧
    ∃ w, out !! 0 = Some w ∧ (w = Num 1 ↔ Str "F" = Str "F").
Proof.
  split; [reflexivity|].
  destruct (binary_attributes_encoded sample eq_refl)
    as (X & y & df & Hrun & Hcodes).
  rewrite preprocess_data_eq in Hrun by reflexivity.
  injection Hrun as <- <- <-.
  destruct (Hcodes "Gender" "F" "M" 0) as (out & Hout & _ & Hrows);
    [in_list|reflexivity|].
  exists out. split; [exact Hout|].
  destruct (Hrows 0 (Str "F") eq_refl) as (w & Hw & H1 & _).
  exists w. by split.
Defined.

(** C2: the schema declares ExtraActivities as a binary attribute, but the
    body never reads it: the feature frame has no column of that name. *)
Theorem extra_activities_omitted (students : frame) :
  length students = 32 →
  ∃ X y df, _preprocess_data students = Ok (X, y, df) ∧
    "ExtraActivities" ∈ COLUMNS ∧
    ("ExtraActivities" ∉ X.*1) ∧
    getattr X "ExtraActivities" = Raise AttributeError.
Proof.
  intros Hlen. eexists _, _, _. split; [by apply preprocess_data_eq|].
  split_and!.
  - unfold COLUMNS. in_list.
  - apply features_lacks; in_list.
  - unfold getattr. rewrite filter_none; [done|].
    apply features_not_named; in_list.
Qed.

Lemma extra_activities_omitted_witness :
  length sample = 32 ∧
  ∃ X y df, _preprocess_data sample = Ok (X, y, df) ∧
    getattr X "ExtraActivities" = Raise AttributeError.
Proof.
  split; [reflexivity|].
  destruct (extra_activities_omitted sample eq_refl)
    as (X & y & df & Hrun & _ & _ & Hget).
  exists X, y, df. by split.
Defined.

(** C5: on a frame of exactly 32 columns whose dictionary-encoded columns
    hold only keys of their dictionaries, [_preprocess_data] returns its
    triple and raises nothing. *)
Theorem preprocess_data_total (students : frame) :
  length students = 32 → binary_values_in_domain students →
  (∃ X y df, _preprocess_data students = Ok (X, y, df)) ∧
  ∀ e, _preprocess_data students ≠ Raise e.
Proof.
  intros Hlen _. rewrite preprocess_data_eq by done. split; [eauto|done].
Qed.

Lemma sample_in_domain : binary_values_in_domain sample.
Proof.
  intros name one zero p Hcode Hp v Hv. unfold binary_codes in Hcode.
  cases_of Hcode; simplify_eq;
    apply position_spec in Hp; subst p;
    match type of Hv with _ ∈ ?l =>
      let l' := eval vm_compute in l in change l with l' in Hv
    end;
    cases_of Hv; subst; auto.
Defined.

Lemma preprocess_data_total_witness :
  length sample = 32 ∧ binary_values_in_domain sample ∧
  ∃ X y df, _preprocess_data sample = Ok (X, y, df).
Proof.
  split; [reflexivity|]. split; [exact sample_in_domain|].
  exact (proj1 (preprocess_data_total sample eq_refl sample_in_domain)).
Defined.

(** ** Renaming, target and row preservation *)

(** C7: on a frame of exactly 32 columns the assignment to
    [students.columns] relabels the columns by position with the fixed list
    of names, leaves the values alone, and the encoding runs on the
    relabelled frame. *)
Theorem columns_renamed (students : frame) :
  length students = 32 →
  ∃ renamed, set_columns students COLUMNS = Ok renamed ∧
    renamed.*1 =
      [ "Gender"; "Age"; "Address"; "FamilySize"; "ParentCohabStatus";
        "MotherEducation"; "FatherEducation"; "MotherJob"; "FatherJob";
        "SchoolChoiceReason"; "Guardian"; "TravelTime"; "StudyTime";
        "Failures"; "SchoolSup"; "FamilySup"; "ExtraPaidClasses";
        "ExtraActivities"; "Nursery"; "WantsHigherEdu"; "HasInternet";
        "Romantic"; "FamilyRelQuality"; "FreeTime"; "GoOut";
        "WorkdayAlcohol"; "WeekendAlcohol"; "HealthStatus"; "Absences";
        "FirstGrade"; "SecondGrade"; "FinalGrade" ] ∧
    renamed.*2 = students.*2 ∧
    _preprocess_data students = encode_attributes renamed.
Proof.
  intros Hlen. exists (zip COLUMNS (students.*2)).
  assert (Hset : set_columns students COLUMNS = Ok (zip COLUMNS (students.*2)))
    by by apply set_columns_eq.
  split_and!; [done| | |].
  - apply fst_zip. rewrite length_fmap, Hlen. simpl. lia.
  - apply snd_zip. rewrite length_fmap, Hlen. simpl. lia.
  - unfold _preprocess_data. by rewrite Hset.
Qed.

Lemma columns_renamed_witness :
  length sample = 32 ∧
  ∃ renamed, set_columns sample COLUMNS = Ok renamed ∧
    renamed.*1 !! 0 = Some "Gender" ∧ renamed.*2 = sample.*2.
Proof.
  split; [reflexivity|].
  destruct (columns_renamed sample eq_refl) as (renamed & Hset & Hn & Hv & _).
  exists renamed. split; [exact Hset|]. split; [|exact Hv].
  rewrite Hn. reflexivity.
Defined.

(** C8: in the returned triple the first column of [df] is FinalGrade, [X]
    is [df] without that column, [y] is that column, and neither FirstGrade
    nor SecondGrade is a column of [df] or of [X]. *)
Theorem target_first_grades_excluded (students : frame) :
  length students = 32 →
  ∃ X y df, _preprocess_data students = Ok (X, y, df) ∧
    df.*1 !! 0 = Some "FinalGrade" ∧
    X = filter (λ c : series, c.1 ≠ "FinalGrade") df ∧
    df = y :: X ∧
    getattr df "FinalGrade" = Ok y ∧
    y = ("FinalGrade", column students 31) ∧
    ("FirstGrade" ∉ df.*1) ∧ ("SecondGrade" ∉ df.*1) ∧
    ("FirstGrade" ∉ X.*1) ∧ ("SecondGrade" ∉ X.*1).
Proof.
  intros Hlen. eexists _, _, _. split; [by apply preprocess_data_eq|].
  split_and!; try done.
  - rewrite filter_cons_False by (simpl; auto).
    symmetry. apply filter_all, features_not_named. in_list.
  - apply getattr_first_column, features_not_named. in_list.
  - rewrite fmap_cons, not_elem_of_cons.
    split; [done|apply features_lacks; in_list].
  - rewrite fmap_cons, not_elem_of_cons.
    split; [done|apply features_lacks; in_list].
  - apply features_lacks; in_list.
  - apply features_lacks; in_list.
Qed.

Lemma target_first_grades_excluded_witness :
  length sample = 32 ∧
  ∃ X y df, _preprocess_data sample = Ok (X, y, df) ∧
    df = y :: X ∧ y = ("FinalGrade", [Num 6; Num 10]).
Proof.
  split; [reflexivity|].
  destruct (target_first_grades_excluded sample eq_refl)
    as (X & y & df & Hrun & _ & _ & Hdf & _ & Hy & _).
  exists X, y, df. split; [exact Hrun|]. split; [exact Hdf|exact Hy].
Defined.

(** C9: a value of a dictionary-encoded column that is not a key of the
    dictionary (another string, a number, a missing value) is encoded as the
    missing value, and the function still returns. *)
Theorem out_of_domain_is_missing (students : frame) :
  length students = 32 →
  ∃ X y df, _preprocess_data students = Ok (X, y, df) ∧
    ∀ name one zero p,
      (name, one, zero) ∈ binary_codes → COLUMNS !! p = Some name →
      ∃ out, getattr X name = Ok (name, out) ∧
        ∀ i v, column students p !! i = Some v →
          v ≠ Str one → v ≠ Str zero → out !! i = Some NaN.
Proof.
  intros Hlen. eexists _, _, _. split; [by apply preprocess_data_eq|].
  intros name one zero p Hcode Hp.
  eexists. split; [by apply getattr_features_binary|].
  rewrite (position_spec p name Hp). fold (column students p).
  intros i v Hv H1 H0.
  by rewrite list_lookup_fmap, Hv, <- (map_cell_other one zero v).
Qed.

(** The sample with the gender of the second student written "X". *)
Lemma out_of_domain_is_missing_witness :
  length (("sex", [Str "F"; Str "X"]) :: tail sample) = 32 ∧
  ∃ X y df,
    _preprocess_data (("sex", [Str "F"; Str "X"]) :: tail sample) = Ok (X, y, df) ∧
    ∃ out, getattr X "Gender" = Ok ("Gender", out) ∧ out !! 1 = Some NaN.
Proof.
  split; [reflexivity|].
  destruct (out_of_domain_is_missing
              (("sex", [Str "F"; Str "X"]) :: tail sample) eq_refl)
    as (X & y & df & Hrun & Hcodes).
  exists X, y, df. split; [exact Hrun|].
  destruct (Hcodes "Gender" "F" "M" 0) as (out & Hout & Hrows);
    [in_list|reflexivity|].
  exists out. split; [exact Hout|].
  apply (Hrows 1 (Str "X")); [reflexivity|discriminate..].
Defined.

Lemma column_length (students : frame) (n p : nat) :
  rectangular n students → p < length students →
  length (column students p) = n.
Proof.
  intros Hrect Hp. unfold column.
  destruct (lookup_lt_is_Some_2 students p Hp) as [c Hc].
  rewrite (list_lookup_total_correct (students.*2) p c.2)
    by (by rewrite list_lookup_fmap, Hc).
  exact (proj1 (Forall_lookup _ _) Hrect p c Hc).
Qed.

(** Every built column is a row-by-row image of one input column. *)
Lemma features_pointwise (ds : list (list cell)) :
  Forall (λ c : series, ∃ p (g : cell → cell), p < 32 ∧ c.2 = g <$> ds !!! p)
    (features ds).
Proof.
  unfold features.
  repeat apply Forall_app_2;
    try (apply Forall_fmap, Forall_forall; intros lv _; simpl;
         eexists _, _; split; [|reflexivity]; lia).
  all: repeat apply Forall_cons_2; try apply Forall_nil_2; simpl.
  all: first [ by (eexists _, _; split; [|reflexivity]; lia)
             | by (eexists _, id; split; [|symmetry; apply list_fmap_id]; lia) ].
Qed.

(** ** One-hot expansion *)

Lemma levels_NoDup (vs : list cell) : NoDup (levels vs).
Proof.
  unfold levels. rewrite merge_sort_Permutation. apply NoDup_remove_dups.
Qed.

Lemma elem_of_levels (vs : list cell) (v : cell) :
  v ∈ levels vs ↔ v ∈ vs ∧ v ≠ NaN.
Proof.
  unfold levels.
  rewrite merge_sort_Permutation, elem_of_remove_dups, list_elem_of_filter.
  tauto.
Qed.

Lemma prefix_empty (s : string) : String.prefix "" s = true.
Proof. by destruct s. Qed.

(** The indicator columns of a nominal attribute are the dummies built from
    its input column. *)
Lemma indicator_group_features (ds : list (list cell)) (name : string) :
  name ∈ nominal_attributes →
  indicator_group name (features ds) =
    get_dummies (name, ds !!! position name) name.
Proof.
  intros Hname. unfold nominal_attributes in Hname.
  cases_of Hname; subst; unfold indicator_group, features;
    rewrite !filter_app.
  all: repeat match goal with
    | |- context [filter ?P (get_dummies ?s ?p)] =>
        first
          [ rewrite (filter_all P (get_dummies s p))
              by (eapply Forall_impl; [apply get_dummies_names|];
                  intros c [x ->]; simpl; by rewrite prefix_empty)
          | rewrite (filter_none P (get_dummies s p))
              by (eapply Forall_impl; [apply get_dummies_names|];
                  intros c [x ->]; simpl; tauto) ]
    end.
  all: repeat match goal with
    | |- context [filter ?P (?c :: ?l)] =>
        change (filter P (c :: l)) with (@nil series)
    end.
  all: cbn [app]; by rewrite ?app_nil_r.
Qed.

Lemma lookup_get_dummies (s : series) (p : string) (j : nat) (c : series) :
  get_dummies s p !! j = Some c →
  ∃ lv, levels s.2 !! j = Some lv ∧ c.2 = indicator lv <$> s.2.
Proof.
  unfold get_dummies. rewrite list_lookup_fmap.
  destruct (levels s.2 !! j) as [lv|]; [|done].
  intros [= <-]. eauto.
Qed.

Lemma one_hot_get_dummies (src : list cell) (name : string) (X : frame) :
  indicator_group name X = get_dummies (name, src) name →
  ∃ lvls, NoDup lvls ∧
    (∀ v, v ∈ lvls ↔ v ∈ src ∧ v ≠ NaN) ∧
    (indicator_group name X).*1 = (λ v, name +:+ "_" +:+ str v) <$> lvls ∧
    ∀ i v, src !! i = Some v → v ≠ NaN →
      ∃ j, j < length lvls ∧
        ∀ j' c, indicator_group name X !! j' = Some c →
          c.2 !! i = Some (if decide (j' = j) then Num 1 else Num 0).
Proof.
  intros ->. exists (levels src). split_and!.
  - apply levels_NoDup.
  - apply elem_of_levels.
  - unfold get_dummies. by rewrite <- list_fmap_compose.
  - intros i v Hi Hv.
    assert (Hin : v ∈ levels src).
    { apply elem_of_levels. split; [|done]. by eapply list_elem_of_lookup_2. }
    apply list_elem_of_lookup in Hin as [j Hj].
    exists j. split; [by eapply lookup_lt_Some|].
    intros j' c (lv & Hlv & ->)%lookup_get_dummies. simpl in *.
    rewrite list_lookup_fmap, Hi. simpl. f_equal. unfold indicator.
    destruct (decide (j' = j)) as [->|Hne].
    + rewrite Hj in Hlv. injection Hlv as <-. by rewrite decide_True.
    + rewrite decide_False; [done|]. intros ->.
      apply Hne. eapply NoDup_lookup; [apply levels_NoDup|done..].
Qed.

(** C3, as amended: for MotherJob, FatherJob and SchoolChoiceReason the
    feature frame has one indicator column per distinct non-missing value
    of the input column, named prefix_value, and every row whose value is
    not missing has 1 in exactly one column of the group and 0 in all the
    others. *)
Theorem one_hot_nominal (students : frame) :
  length students = 32 →
  ∃ X y df, _preprocess_data students = Ok (X, y, df) ∧
    one_hot (λ v, v ≠ NaN) students X.
Proof.
  intros Hlen. eexists _, _, _. split; [by apply preprocess_data_eq|].
  intros name p Hname Hp. apply one_hot_get_dummies.
  rewrite indicator_group_features by done.
  by rewrite (position_spec p name Hp).
Qed.

Lemma one_hot_nominal_witness :
  length sample = 32 ∧
  ∃ X y df, _preprocess_data sample = Ok (X, y, df) ∧
    one_hot (λ v, v ≠ NaN) sample X.
Proof.
  split; [reflexivity|]. exact (one_hot_nominal sample eq_refl).
Defined.

(** C3, as stated, fails on a row whose MotherJob is missing: the value
    occurs in the input column, yet no indicator column stands for it and
    the row has no 1 in the group. *)
Lemma one_hot_fails_on_missing :
  length missing_job = 32 ∧
  ¬ ∃ X y df, _preprocess_data missing_job = Ok (X, y, df) ∧
      one_hot (λ _, True) missing_job X.
Proof.
  split; [reflexivity|]. intros (X & y & df & Hrun & Hhot).
  rewrite preprocess_data_eq in Hrun by reflexivity.
  injection Hrun as <- <- <-.
  destruct (Hhot "MotherJob" 7) as (lvls & _ & Hin & Hnames & _);
    [in_list|reflexivity|].
  assert (HNaN : NaN ∈ lvls) by (apply Hin; split; [left|done]).
  change ((indicator_group "MotherJob" _).*1) with (@nil string) in Hnames.
  symmetry in Hnames.
  apply fmap_nil_inv in Hnames. subst lvls.
  by apply not_elem_of_nil in HNaN.
Qed.

(** A row with a missing value has 0 in every column of the group. *)
Lemma missing_row_all_zero (s : series) (p : string) (i : nat) (c : series) :
  s.2 !! i = Some NaN → c ∈ get_dummies s p → c.2 !! i = Some (Num 0).
Proof.
  intros Hi (j & Hj)%list_elem_of_lookup.
  apply lookup_get_dummies in Hj as (lv & Hlv & ->).
  rewrite list_lookup_fmap, Hi. simpl. f_equal. unfold indicator.
  rewrite decide_False; [done|]. intros <-.
  apply list_elem_of_lookup_2, elem_of_levels in Hlv. tauto.
Qed.

(** Every attribute column is built from one input column by a fixed
    function of the cell: a numerical attribute is the input column itself,
    a binary attribute its image under the dictionary lookup, an indicator
    the image under the test for its level. *)
Lemma features_row_by_row (students : frame) :
  Forall (λ c : series,
      (∃ name p, c = (name, column students p) ∧
         name ∈ numeric_attributes ∧ COLUMNS !! p = Some name) ∨
      (∃ name one zero p,
         c = (name, map_cell {[ one := 1%Z; zero := 0%Z ]} <$> column students p) ∧
         (name, one, zero) ∈ binary_codes ∧ COLUMNS !! p = Some name) ∨
      (∃ name p lv,
         c = (name +:+ "_" +:+ str lv, indicator lv <$> column students p) ∧
         name ∈ nominal_attributes ∧ COLUMNS !! p = Some name))
    (features (students.*2)).
Proof.
  unfold features, column.
  repeat apply Forall_app_2;
    try (apply Forall_fmap, Forall_forall; intros lv _; simpl;
         right; right; eexists _, _, lv;
         split; [reflexivity|]; split; [in_list|reflexivity]).
  all: repeat apply Forall_cons_2; try apply Forall_nil_2.
  all: first
    [ left; eexists _, _; split; [reflexivity|];
      split; [in_list|reflexivity]
    | right; left; eexists _, _, _, _; split; [reflexivity|];
      split; [in_list|reflexivity] ].
Qed.

(** C10: on an input of [n] rows, [X], [y] and [df] have [n] rows in the
    order of the input: [y] is the FinalGrade input column itself, [df] is
    [y] followed by the columns of [X], and every column of [X] is, row by
    row, the input column of its attribute (the thirteen numerical
    attributes, copied value for value), its image under the dictionary
    lookup (the binary attributes) or under the test for one level (the
    indicators). *)
Theorem rows_preserved (students : frame) (n : nat) :
  length students = 32 → rectangular n students →
  ∃ X y df, _preprocess_data students = Ok (X, y, df) ∧
    rectangular n X ∧ length y.2 = n ∧ rectangular n df ∧
    Forall (λ c : series,
      ∃ p (g : cell → cell), p < 32 ∧ c.2 = g <$> column students p) df ∧
    y = ("FinalGrade", column students 31) ∧
    df = y :: X ∧
    Forall (λ c : series,
      (∃ name p, c = (name, column students p) ∧
         name ∈ numeric_attributes ∧ COLUMNS !! p = Some name) ∨
      (∃ name one zero p,
         c = (name, map_cell {[ one := 1%Z; zero := 0%Z ]} <$> column students p) ∧
         (name, one, zero) ∈ binary_codes ∧ COLUMNS !! p = Some name) ∨
      (∃ name p lv,
         c = (name +:+ "_" +:+ str lv, indicator lv <$> column students p) ∧
         name ∈ nominal_attributes ∧ COLUMNS !! p = Some name)) X ∧
    (∀ name p, name ∈ numeric_attributes → COLUMNS !! p = Some name →
       getattr X name = Ok (name, column students p)) ∧
    (∀ name one zero p,
       (name, one, zero) ∈ binary_codes → COLUMNS !! p = Some name →
       getattr X name =
         Ok (name, map_cell {[ one := 1%Z; zero := 0%Z ]} <$> column students p)) ∧
    (∀ name p, name ∈ nominal_attributes → COLUMNS !! p = Some name →
       ∀ c, c ∈ indicator_group name X →
         ∃ lv, lv ∈ column students p ∧ lv ≠ NaN ∧
           c = (name +:+ "_" +:+ str lv, indicator lv <$> column students p)).
Proof.
  intros Hlen Hrect. eexists _, _, _. split; [by apply preprocess_data_eq|].
  assert (Hpt : Forall (λ c : series,
      ∃ p (g : cell → cell), p < 32 ∧ c.2 = g <$> column students p)
      (("FinalGrade", column students 31) :: features (students.*2))).
  { apply Forall_cons_2; [|apply features_pointwise].
    exists 31, id. split; [lia|]. simpl. by rewrite list_fmap_id. }
  assert (Hn : rectangular n
      (("FinalGrade", column students 31) :: features (students.*2))).
  { eapply Forall_impl; [exact Hpt|]. intros c (p & g & Hp & ->).
    rewrite length_fmap. apply column_length; [done|lia]. }
  split_and!; try done.
  - by apply Forall_cons_1 in Hn as [_ ?].
  - by apply Forall_cons_1 in Hn as [? _].
  - apply features_row_by_row.
  - intros name p Hname Hp.
    rewrite <- (position_spec p name Hp). by apply getattr_features_numeric.
  - intros name one zero p Hcode Hp. unfold column.
    rewrite <- (position_spec p name Hp). by apply getattr_features_binary.
  - intros name p Hname Hp c.
    rewrite indicator_group_features by done.
    rewrite (position_spec p name Hp). fold (column students p).
    unfold get_dummies. intros (lv & -> & Hlv)%list_elem_of_fmap. simpl.
    apply elem_of_levels in Hlv as [Hin Hne]. eauto.
Qed.

Lemma sample_rectangular : rectangular 2 sample.
Proof. repeat constructor. Defined.

Lemma rows_preserved_witness :
  length sample = 32 ∧ rectangular 2 sample ∧
  ∃ X y df, _preprocess_data sample = Ok (X, y, df) ∧
    rectangular 2 X ∧
    y = ("FinalGrade", [Num 6; Num 10]) ∧
    df = y :: X ∧
    getattr X "Age" = Ok ("Age", [Num 18; Num 17]) ∧
    getattr X "Gender" = Ok ("Gender", [Num 1; Num 0]).
Proof.
  split; [reflexivity|]. split; [exact sample_rectangular|].
  destruct (rows_preserved sample 2 eq_refl sample_rectangular)
    as (X & y & df & Hrun & HX & _ & _ & _ & Hy & Hdf & _ & Hnum & Hbin & _).
  exists X, y, df. split; [exact Hrun|]. split; [exact HX|].
  split; [exact Hy|]. split; [exact Hdf|]. split.
  - apply (Hnum "Age" 1); [in_list|reflexivity].
  - apply (Hbin "Gender" "F" "M" 0); [in_list|reflexivity].
Defined.

(** ** The train/validation split *)

Lemma ceil_fifth (n : nat) :
  Qceiling ((2 # 10) * inject_Z (Z.of_nat n)) = ((Z.of_nat n + 4) / 5)%Z.
Proof.
  unfold Qceiling, Qfloor, Qopp, Qmult, inject_Z. simpl.
  change (Z.pos (10 * 1)) with 10%Z.
  generalize (Z.of_nat n). intros z.
  Z.to_euclidean_division_equations. lia.
Qed.

(** With [test_size = 0.2] the validation set gets [ceil(n / 5)] rows, and a
    frame of fewer than two rows is refused. *)
Lemma validate_shuffle_split_fifth (n : nat) :
  _validate_shuffle_split n (2 # 10) =
    if decide (n ≤ 1) then Raise ValueError
    else Ok (n - (n + 4) / 5, (n + 4) / 5).
Proof.
  unfold _validate_shuffle_split.
  change (Qle_bool (2 # 10) 0 || Qle_bool 1 (2 # 10)) with false.
  cbv iota zeta. rewrite ceil_fifth.
  assert (Hq : ((Z.of_nat n + 4) / 5)%Z = Z.of_nat ((n + 4) / 5)).
  { rewrite Nat2Z.inj_div. f_equal. lia. }
  rewrite Hq.
  pose proof (Nat.div_mod_eq (n + 4) 5) as Hdiv.
  pose proof (Nat.mod_upper_bound (n + 4) 5 ltac:(lia)) as Hmod.
  generalize dependent ((n + 4) / 5). intros q _ Hdiv.
  rewrite decide_False by lia.
  destruct (decide (n ≤ 1)) as [Hn|Hn].
  - by rewrite decide_True by lia.
  - rewrite decide_False by lia.
    do 2 f_equal; lia.
Qed.

Lemma nrows_rectangular (df : frame) (n : nat) :
  df ≠ [] → rectangular n df → nrows df = n.
Proof.
  intros Hne Hrect. destruct df as [|c df]; [done|].
  by apply Forall_cons_1 in Hrect as [? _].
Qed.

Lemma fmap_lookup_total_seq {A B} `{!Inhabited A} (f : A → B) (l : list A) :
  (λ k, f (l !!! k)) <$> seq 0 (length l) = f <$> l.
Proof.
  apply list_eq. intros k. rewrite !list_lookup_fmap.
  destruct (decide (k < length l)) as [Hk|Hk].
  - rewrite lookup_seq_lt by done. simpl.
    destruct (lookup_lt_is_Some_2 l k Hk) as [x Hx].
    by rewrite Hx, (list_lookup_total_correct l k x).
  - rewrite lookup_seq_ge by lia.
    by rewrite lookup_ge_None_2 by lia.
Qed.

(** Reading rows by in-range positions: headers kept, one row per position,
    each the row of the frame at that position. *)
Lemma iloc_rows (df : frame) (idx : list nat) (n : nat) :
  df ≠ [] → rectangular n df → Forall (λ i, i < n) idx →
  ∃ sub, iloc df idx = Ok sub ∧ sub.*1 = df.*1 ∧
    nrows sub = length idx ∧ rows sub = row df <$> idx.
Proof.
  intros Hne Hrect Hidx. unfold iloc.
  rewrite (nrows_rectangular df n) by done. rewrite decide_True by done.
  eexists. split; [done|]. split_and!.
  - rewrite <- list_fmap_compose. by apply list_fmap_ext.
  - destruct df as [|c df]; [done|]. simpl. by rewrite length_fmap.
  - unfold rows.
    assert (Hlen : nrows ((λ c : series, (c.1, (λ i, c.2 !!! i) <$> idx)) <$> df)
                   = length idx).
    { destruct df as [|c df]; [done|]. simpl. by rewrite length_fmap. }
    rewrite Hlen, <- (fmap_lookup_total_seq (row df) idx).
    apply list_fmap_ext. intros j k [Hj Hk]%lookup_seq. simpl in Hj. subst j.
    unfold row. rewrite <- list_fmap_compose. apply list_fmap_ext.
    intros _ c _. simpl in *.
    destruct (lookup_lt_is_Some_2 idx k Hk) as [i Hi].
    rewrite (list_lookup_total_correct idx k i) by done.
    apply list_lookup_total_correct. by rewrite list_lookup_fmap, Hi.
Qed.

Section split.
Variable permutation : nat → list nat.
Hypothesis permutation_range : ∀ n, permutation n ≡ₚ seq 0 n.

Lemma permutation_length (n : nat) : length (permutation n) = n.
Proof. by rewrite permutation_range, length_seq. Qed.

Lemma permutation_bound (n : nat) : Forall (λ i, i < n) (permutation n).
Proof.
  rewrite permutation_range. apply Forall_forall.
  intros i ?%elem_of_seq. lia.
Qed.

Lemma permutation_NoDup (n : nat) : NoDup (permutation n).
Proof. rewrite permutation_range. apply NoDup_seq. Qed.

(** C4, as amended: for every frame of [n >= 2] rows and every shuffle of
    the row positions, the split returns a validation set of [ceil(0.2 * n)]
    rows and a training set of the remaining rows; the two are read from
    disjoint positions that together are all positions, so every row of the
    frame is in exactly one of them, unchanged. *)
Theorem split_partitions_rows (df : frame) (n : nat) :
  df ≠ [] → rectangular n df → 2 ≤ n →
  split_ok permutation df n.
Proof.
  intros Hne Hrect Hn. unfold split_ok, split_cell, train_test_split.
  rewrite (nrows_rectangular df n) by done.
  rewrite validate_shuffle_split_fifth, decide_False by lia.
  rewrite bind_Ok. cbv beta iota zeta.
  set (n_test := (n + 4) / 5).
  assert (Htest : n_test < n).
  { subst n_test. apply Nat.Div0.div_lt_upper_bound. lia. }
  set (ind_test := take n_test (permutation n)).
  set (ind_train := take (n - n_test) (drop n_test (permutation n))).
  assert (Hdrop : ind_train = drop n_test (permutation n)).
  { subst ind_train. apply take_ge.
    rewrite length_drop, permutation_length. lia. }
  destruct (iloc_rows df ind_train n) as (train & -> & Hc1 & Hn1 & Hr1);
    [done..| |].
  { rewrite Hdrop. apply Forall_drop, permutation_bound. }
  destruct (iloc_rows df ind_test n) as (test & -> & Hc2 & Hn2 & Hr2);
    [done..| |].
  { apply Forall_take, permutation_bound. }
  assert (Hperm : ind_train ++ ind_test ≡ₚ permutation n).
  { rewrite Hdrop. subst ind_test.
    rewrite (comm (++)). by rewrite take_drop. }
  exists train, test. split; [done|]. split_and!; try done.
  - rewrite Hn2, ceil_fifth. subst ind_test.
    rewrite length_take, permutation_length.
    replace ((Z.of_nat n + 4) / 5)%Z with (Z.of_nat n_test).
    { rewrite Nat2Z.id. lia. }
    subst n_test. rewrite Nat2Z.inj_div. f_equal. lia.
  - rewrite Hn1, Hn2, Hdrop. subst ind_test.
    rewrite length_drop, length_take, permutation_length. lia.
  - exists ind_train, ind_test. split_and!; try done.
    + rewrite Hperm. apply permutation_NoDup.
    + by rewrite Hperm.
    + rewrite Hr1, Hr2, <- fmap_app, Hperm, permutation_range.
      unfold rows. by rewrite (nrows_rectangular df n).
Qed.

End split.

Lemma sample_rows : rectangular 2 sample.
Proof. repeat constructor. Defined.

Lemma split_partitions_rows_witness :
  (∀ n, identity_permutation n ≡ₚ seq 0 n) ∧
  sample ≠ [] ∧ rectangular 2 sample ∧ 2 ≤ 2 ∧
  split_ok identity_permutation sample 2.
Proof.
  assert (Hperm : ∀ n, identity_permutation n ≡ₚ seq 0 n) by reflexivity.
  assert (Hne : sample ≠ []) by discriminate.
  split_and!; [exact Hperm|exact Hne|exact sample_rows|lia|].
  apply (split_partitions_rows identity_permutation Hperm sample 2 Hne sample_rows).
  lia.
Defined.

(** C4, as stated, fails on the preprocessed frame of a single student:
    the frame is not empty, but leaving one row for validation would leave
    none for training, and the split raises [ValueError]. *)
Lemma split_fails_on_one_row :
  (∀ n, identity_permutation n ≡ₚ seq 0 n) ∧
  ∃ X y df, _preprocess_data one_student = Ok (X, y, df) ∧
    df ≠ [] ∧ rectangular 1 df ∧
    split_cell identity_permutation df = Raise ValueError ∧
    ¬ split_ok identity_permutation df 1.
Proof.
  split; [reflexivity|].
  eexists _, _, _. split; [by apply preprocess_data_eq|].
  assert (Hsplit : ∀ df : frame, nrows df = 1 →
            split_cell identity_permutation df = Raise ValueError).
  { intros df Hn. unfold split_cell, train_test_split.
    by rewrite Hn, validate_shuffle_split_fifth. }
  split_and!.
  - discriminate.
  - match goal with |- rectangular 1 ?df =>
      let d := eval vm_compute in df in change df with d
    end.
    repeat constructor.
  - by apply Hsplit.
  - intros (train & test & Hrun & _). rewrite Hsplit in Hrun; done.
Qed.

(** ** Order of the remote calls *)

Lemma submitted_before_intro (a b : call) (tr : list call) (i j : nat) :
  NoDup tr → tr !! i = Some a → tr !! j = Some b → i < j →
  submitted_before a b tr.
Proof.
  intros Hnd Hi Hj Hij. split_and!.
  - by eapply list_elem_of_lookup_2.
  - by eapply list_elem_of_lookup_2.
  - intros i' j' Hi' Hj'.
    rewrite (NoDup_lookup tr i' i a), (NoDup_lookup tr j' j b); done.
Qed.

Lemma submitted_before_find (a b : call) (tr : list call) (i j : nat) :
  NoDup tr →
  list_find (λ c, c = a) tr = Some (i, a) →
  list_find (λ c, c = b) tr = Some (j, b) →
  i < j → submitted_before a b tr.
Proof.
  intros Hnd (Hi & _)%list_find_Some (Hj & _)%list_find_Some Hij.
  by eapply submitted_before_intro.
Qed.

Ltac in_order Hnd :=
  eapply submitted_before_find;
    [exact Hnd | vm_compute; reflexivity | vm_compute; reflexivity | lia].

(** Run from a fresh kernel, every cell finds the names it reads, and the
    remote calls are made in this order. *)
Lemma run_all_trace :
  ∃ k, run_all = Ok k ∧
    trace k =
      [ GetExecutionRole; DefaultBucket; ReadCsv;
        S3Upload "train_data.csv"; S3Upload "validation_data.csv";
        RunPreTrainingBias; S3Download "./pretraining_bias_reports";
        TunerFit; DescribeTuningJob; TunerDeploy; RunPostTrainingBias;
        S3Download "./posttraining_bias_reports"; RunExplainability;
        S3Download "./explainability_reports"; DeleteModel; DeleteEndpoint ].
Proof.
  destruct run_all as [k|e] eqn:Hrun.
  - exists k. split; [done|].
    change (trace k) with (match Ok k with Ok k => trace k | Raise _ => [] end).
    rewrite <- Hrun. by vm_compute.
  - exfalso. assert (H : match run_all with Ok _ => True | Raise _ => False end)
      by by vm_compute.
    by rewrite Hrun in H.
Qed.

(** The order is not only the order of the cells: the post-training cells
    read names that the upload and deployment cells bind, so leaving one of
    these out stops the run with a [NameError]. *)
Lemma upload_cell_needed :
  notebook !! 4 = Some cell_upload ∧
  exec (Kernel ∅ []) (mjoin (delete 4 notebook)) = Raise NameError.
Proof. split; [reflexivity|]. vm_compute. reflexivity. Qed.

Lemma deploy_cell_needed :
  notebook !! 14 = Some cell_deploy ∧
  exec (Kernel ∅ []) (mjoin (delete 14 notebook)) = Raise NameError.
Proof. split; [reflexivity|]. vm_compute. reflexivity. Qed.

(** C6: running the notebook top to bottom, the only uploads are those of
    the training and validation data and both precede every managed job; the
    pre-training bias job precedes the tuning job, the tuning job precedes
    the deployment, and the post-training bias job and the explainability
    job follow the deployment. *)
Theorem jobs_submitted_in_order :
  ∃ k, run_all = Ok k ∧
    (∀ file, S3Upload file ∈ trace k → S3Upload file ∈ uploads) ∧
    (∀ u job, u ∈ uploads → job ∈ managed_jobs →
       submitted_before u job (trace k)) ∧
    submitted_before RunPreTrainingBias TunerFit (trace k) ∧
    submitted_before TunerFit TunerDeploy (trace k) ∧
    submitted_before TunerDeploy RunPostTrainingBias (trace k) ∧
    submitted_before TunerDeploy RunExplainability (trace k).
Proof.
  destruct run_all_trace as (k & Hrun & Htr). exists k. split; [done|].
  rewrite Htr.
  match goal with |- context [submitted_before _ _ ?tr] =>
    assert (Hnd : NoDup tr) by (apply (bool_decide_unpack _); by vm_compute)
  end.
  split_and!.
  - intros file Hfile. unfold uploads.
    cases_of Hfile; try discriminate Hfile; injection Hfile as ->; in_list.
  - intros u job Hu Hjob. unfold uploads, managed_jobs in *.
    cases_of Hu; cases_of Hjob; subst; in_order Hnd.
  - in_order Hnd.
  - in_order Hnd.
  - in_order Hnd.
  - in_order Hnd.
Qed.

(** * Further properties *)

(** ** Errors, unread columns and shape of [_preprocess_data] *)

(** X1: [_preprocess_data] raises exactly when the frame does not have 32
    columns, and the exception is then the [ValueError] of the assignment
    to [students.columns]. *)
Theorem preprocess_data_raises_iff (students : frame) (e : exn) :
  _preprocess_data students = Raise e ↔ length students ≠ 32 ∧ e = ValueError.
Proof.
  destruct (decide (length students = 32)) as [Hlen|Hlen].
  - rewrite preprocess_data_eq by done. split; [done|]. by intros [? _].
  - rewrite preprocess_data_raises by done. split.
    + by intros [= <-].
    + by intros [_ ->].
Qed.

(** X2: the result does not depend on the headers of the input nor on the
    values of the four columns no statement reads (Guardian,
    ExtraActivities, FirstGrade, SecondGrade). *)
Theorem unread_columns_ignored (students students' : frame) :
  length students = 32 → length students' = 32 →
  (∀ p, p ∉ unread_positions → column students p = column students' p) →
  _preprocess_data students = _preprocess_data students'.
Proof.
  intros Hlen Hlen' Hcols. rewrite !preprocess_data_eq by done.
  assert (Hk : ∀ p, p ∉ unread_positions →
            students.*2 !!! p = students'.*2 !!! p) by exact Hcols.
  unfold features, column.
  rewrite !Hk by (intros Hin; unfold unread_positions in Hin;
                  cases_of Hin; discriminate Hin).
  reflexivity.
Qed.

Lemma unread_columns_ignored_witness :
  length sample = 32 ∧ length sample_other_guardian = 32 ∧
  (∀ p, p ∉ unread_positions →
     column sample p = column sample_other_guardian p) ∧
  _preprocess_data sample = _preprocess_data sample_other_guardian.
Proof.
  assert (Hcols : ∀ p, p ∉ unread_positions →
            column sample p = column sample_other_guardian p).
  { intros p Hp. unfold column, sample_other_guardian.
    rewrite list_fmap_insert. symmetry. apply list_lookup_total_insert_ne.
    intros <-. apply Hp. unfold unread_positions. in_list. }
  split; [reflexivity|]. split; [reflexivity|]. split; [exact Hcols|].
  exact (unread_columns_ignored sample sample_other_guardian eq_refl eq_refl Hcols).
Defined.

Lemma length_get_dummies (s : series) (p : string) :
  length (get_dummies s p) = distinct_values s.2.
Proof.
  unfold get_dummies, levels, distinct_values.
  by rewrite length_fmap, merge_sort_Permutation.
Qed.

(** X3: [df] has 25 columns plus one per distinct non-missing value of
    MotherJob, FatherJob and SchoolChoiceReason, and [X] has one fewer. *)
Theorem preprocessed_shape (students : frame) :
  length students = 32 →
  ∃ X y df, _preprocess_data students = Ok (X, y, df) ∧
    length df = 25 + distinct_values (column students 7)
                   + distinct_values (column students 8)
                   + distinct_values (column students 9) ∧
    length X = length df - 1.
Proof.
  intros Hlen. eexists _, _, _. split; [by apply preprocess_data_eq|].
  unfold features. cbn [length].
  rewrite !length_app, !length_get_dummies. cbn [length app snd].
  unfold column. lia.
Qed.

Lemma preprocessed_shape_witness :
  length sample = 32 ∧
  ∃ X y df, _preprocess_data sample = Ok (X, y, df) ∧ length df = 30.
Proof.
  split; [reflexivity|].
  destruct (preprocessed_shape sample eq_refl) as (X & y & df & Hrun & Hdf & _).
  exists X, y, df. split; [exact Hrun|]. rewrite Hdf. reflexivity.
Defined.

(** ** Undoing the encodings *)

(** X5: when every dictionary-encoded column holds only keys of its
    dictionary, the encoded column holds only 0 and 1 (no missing value is
    introduced) and the inverse lookup gives back the input column. *)
Theorem binary_encoding_round_trip (students : frame) :
  length students = 32 → binary_values_in_domain students →
  ∃ X y df, _preprocess_data students = Ok (X, y, df) ∧
    ∀ name one zero p,
      (name, one, zero) ∈ binary_codes → COLUMNS !! p = Some name →
      ∃ out, getattr X name = Ok (name, out) ∧
        Forall (λ w, w = Num 0 ∨ w = Num 1) out ∧
        decode_cell one zero <$> out = column students p.
Proof.
  intros Hlen Hdom. eexists _, _, _. split; [by apply preprocess_data_eq|].
  intros name one zero p Hcode Hp.
  eexists. split; [by apply getattr_features_binary|].
  rewrite (position_spec p name Hp). fold (column students p).
  pose proof (binary_codes_distinct _ _ _ Hcode) as Hne.
  specialize (Hdom name one zero p Hcode Hp).
  split.
  - apply Forall_fmap, Forall_forall. intros v Hv. simpl.
    destruct (Hdom v Hv) as [->| ->].
    + right. by apply map_cell_one.
    + left. by apply map_cell_zero.
  - rewrite <- list_fmap_compose. rewrite <- (list_fmap_id (column students p)) at 2.
    apply Forall_fmap_ext, Forall_forall. intros v Hv. simpl.
    destruct (Hdom v Hv) as [->| ->].
    + by rewrite (proj2 (map_cell_one one zero (Str one) Hne) eq_refl).
    + by rewrite (proj2 (map_cell_zero one zero (Str zero) Hne) eq_refl).
Qed.

Lemma binary_encoding_round_trip_witness :
  length sample = 32 ∧ binary_values_in_domain sample ∧
  ∃ X y df, _preprocess_data sample = Ok (X, y, df) ∧
    ∃ out, getattr X "Address" = Ok ("Address", out) ∧
      decode_cell "U" "R" <$> out = [Str "U"; Str "R"].
Proof.
  split; [reflexivity|]. split; [exact sample_in_domain|].
  destruct (binary_encoding_round_trip sample eq_refl sample_in_domain)
    as (X & y & df & Hrun & Hcodes).
  exists X, y, df. split; [exact Hrun|].
  destruct (Hcodes "Address" "U" "R" 2) as (out & Hout & _ & Hback);
    [in_list|reflexivity|].
  exists out. split; [exact Hout|exact Hback].
Defined.

Lemma elem_of_get_dummies (s : series) (p : string) (c : series) :
  c ∈ get_dummies s p ↔
  ∃ lv, lv ∈ levels s.2 ∧ c = (p +:+ "_" +:+ str lv, indicator lv <$> s.2).
Proof.
  unfold get_dummies. rewrite list_elem_of_fmap. split.
  - intros (lv & -> & Hlv). eauto.
  - intros (lv & Hlv & ->). eauto.
Qed.

(** X6: in a row with a non-missing nominal value, the indicator column
    named prefix_value holds 1, and every indicator of the group that holds
    1 in that row has that name. *)
Theorem indicator_named_after_value (students : frame) :
  length students = 32 →
  ∃ X y df, _preprocess_data students = Ok (X, y, df) ∧
    ∀ name p, name ∈ nominal_attributes → COLUMNS !! p = Some name →
      ∀ i v, column students p !! i = Some v → v ≠ NaN →
        (∃ c, c ∈ indicator_group name X ∧
           c.1 = name +:+ "_" +:+ str v ∧ c.2 !! i = Some (Num 1)) ∧
        (∀ c, c ∈ indicator_group name X →
           c.2 !! i = Some (Num 1) → c.1 = name +:+ "_" +:+ str v).
Proof.
  intros Hlen. eexists _, _, _. split; [by apply preprocess_data_eq|].
  intros name p Hname Hp i v Hi Hv.
  rewrite indicator_group_features by done.
  rewrite (position_spec p name Hp). fold (column students p).
  split.
  - eexists. split.
    + apply elem_of_get_dummies. exists v. split; [|reflexivity].
      apply elem_of_levels. split; [|done]. by eapply list_elem_of_lookup_2.
    + split; [reflexivity|]. simpl.
      rewrite list_lookup_fmap, Hi. simpl. unfold indicator.
      by rewrite decide_True.
  - intros c (lv & Hlv & ->)%elem_of_get_dummies. simpl.
    rewrite list_lookup_fmap, Hi. simpl. unfold indicator.
    destruct (decide (v = lv)) as [->|Hne]; [done|]. intros [=].
Qed.

Lemma indicator_named_after_value_witness :
  length sample = 32 ∧
  ∃ X y df, _preprocess_data sample = Ok (X, y, df) ∧
    ∃ c, c ∈ indicator_group "MotherJob" X ∧
      c.1 = "MotherJob_teacher" ∧ c.2 !! 1 = Some (Num 1).
Proof.
  split; [reflexivity|].
  destruct (indicator_named_after_value sample eq_refl)
    as (X & y & df & Hrun & Hname).
  exists X, y, df. split; [exact Hrun|].
  destruct (Hname "MotherJob" 7) with (i := 1) (v := Str "teacher")
    as [Hex _]; [in_list|reflexivity|reflexivity|discriminate|].
  exact Hex.
Defined.

(** X7: in a row whose nominal value is missing, every indicator column
    of the group holds 0. *)
Theorem missing_value_all_zero (students : frame) :
  length students = 32 →
  ∃ X y df, _preprocess_data students = Ok (X, y, df) ∧
    ∀ name p, name ∈ nominal_attributes → COLUMNS !! p = Some name →
      ∀ i, column students p !! i = Some NaN →
        ∀ c, c ∈ indicator_group name X → c.2 !! i = Some (Num 0).
Proof.
  intros Hlen. eexists _, _, _. split; [by apply preprocess_data_eq|].
  intros name p Hname Hp i Hi c.
  rewrite indicator_group_features by done.
  rewrite (position_spec p name Hp). fold (column students p).
  by apply missing_row_all_zero.
Qed.

Lemma missing_value_all_zero_witness :
  length sample_missing_job = 32 ∧
  ∃ X y df, _preprocess_data sample_missing_job = Ok (X, y, df) ∧
    ∀ c, c ∈ indicator_group "MotherJob" X → c.2 !! 1 = Some (Num 0).
Proof.
  split; [reflexivity|].
  destruct (missing_value_all_zero sample_missing_job eq_refl)
    as (X & y & df & Hrun & Hzero).
  exists X, y, df. split; [exact Hrun|].
  apply (Hzero "MotherJob" 7); [in_list|reflexivity|reflexivity].
Defined.

(** ** The headers of the preprocessed frame *)

Lemma get_dummies_headers (s : series) (p : string) :
  (get_dummies s p).*1 = (λ lv, p +:+ "_" +:+ str lv) <$> levels s.2.
Proof. unfold get_dummies. by rewrite <- list_fmap_compose. Qed.

Lemma get_dummies_headers_NoDup (s : series) (p : string) :
  text_or_missing s.2 → NoDup ((get_dummies s p).*1).
Proof.
  intros Htext. rewrite get_dummies_headers.
  apply NoDup_fmap_2_strong; [|apply levels_NoDup].
  intros v w [Hv Hv']%elem_of_levels [Hw Hw']%elem_of_levels Heq.
  unfold text_or_missing in Htext. rewrite Forall_forall in Htext.
  destruct (Htext v Hv) as [->|[a ->]]; [done|].
  destruct (Htext w Hw) as [->|[b ->]]; [done|].
  simpl in Heq. apply (inj (String.app p)) in Heq.
  apply (inj (String.app "_")) in Heq. by subst.
Qed.

Lemma kind_disjoint (l k : list string) (a b : nat) :
  a ≠ b → Forall (λ h, kind h = a) l → Forall (λ h, kind h = b) k →
  ∀ h, h ∈ l → h ∉ k.
Proof.
  intros Hab Hl Hk h Hinl Hink.
  rewrite Forall_forall in Hl, Hk. apply Hab.
  by rewrite <- (Hl h Hinl), <- (Hk h Hink).
Qed.

Lemma get_dummies_kind (s : series) (p : string) (a : nat) :
  (∀ x, kind (p +:+ "_" +:+ x) = a) →
  Forall (λ h, kind h = a) ((get_dummies s p).*1).
Proof.
  intros Hkind. rewrite get_dummies_headers.
  apply Forall_fmap, Forall_forall. intros lv _. apply Hkind.
Qed.

Lemma move_tail_forward {A} (x : A) (l1 l2 l3 l4 l5 : list A) :
  x :: l1 ++ l2 ++ l3 ++ l4 ++ l5 ≡ₚ (x :: l1 ++ l5) ++ l2 ++ l3 ++ l4.
Proof.
  rewrite <- !app_comm_cons. f_equiv. rewrite <- (assoc (++) l1). f_equiv.
  rewrite (comm (++) l5). by rewrite <- !(assoc (++)).
Qed.

Ltac dummy_kind := intros x; unfold kind; simpl; by rewrite prefix_empty.

(** X4: when the three nominal columns hold only strings (or missing
    values), the headers of [df] are pairwise distinct. *)
Theorem headers_distinct (students : frame) :
  length students = 32 →
  (∀ p, p ∈ [7; 8; 9] → text_or_missing (column students p)) →
  ∃ X y df, _preprocess_data students = Ok (X, y, df) ∧ NoDup (df.*1).
Proof.
  intros Hlen Htext. eexists _, _, _. split; [by apply preprocess_data_eq|].
  unfold features. rewrite fmap_cons, !fmap_app. cbn [fmap list_fmap fst].
  set (D1 := (get_dummies _ "MotherJob").*1).
  set (D2 := (get_dummies _ "FatherJob").*1).
  set (D3 := (get_dummies _ "SchoolChoiceReason").*1).
  match goal with |- NoDup (?fg :: ?A ++ D1 ++ D2 ++ D3 ++ ?E) =>
    assert (Hperm : fg :: A ++ D1 ++ D2 ++ D3 ++ E ≡ₚ
                    (fg :: A ++ E) ++ D1 ++ D2 ++ D3);
    [|assert (Hfixed : NoDup (fg :: A ++ E))
        by (apply (bool_decide_unpack _); vm_compute; exact I);
      assert (Hk0 : Forall (λ h, kind h = 0) (fg :: A ++ E))
        by (apply (bool_decide_unpack _); vm_compute; exact I)]
  end.
  { apply move_tail_forward. }
  assert (Hk1 : Forall (λ h, kind h = 1) D1)
    by (apply get_dummies_kind; dummy_kind).
  assert (Hk2 : Forall (λ h, kind h = 2) D2)
    by (apply get_dummies_kind; dummy_kind).
  assert (Hk3 : Forall (λ h, kind h = 3) D3)
    by (apply get_dummies_kind; dummy_kind).
  assert (Hn1 : NoDup D1)
    by (apply get_dummies_headers_NoDup, (Htext 7); in_list).
  assert (Hn2 : NoDup D2)
    by (apply get_dummies_headers_NoDup, (Htext 8); in_list).
  assert (Hn3 : NoDup D3)
    by (apply get_dummies_headers_NoDup, (Htext 9); in_list).
  rewrite Hperm. clear Hperm.
  apply NoDup_app. split; [exact Hfixed|]. split.
  { intros h Hh. rewrite !elem_of_app. intros [Hin|[Hin|Hin]].
    - by eapply (kind_disjoint _ D1 0 1).
    - by eapply (kind_disjoint _ D2 0 2).
    - by eapply (kind_disjoint _ D3 0 3). }
  apply NoDup_app. split; [exact Hn1|]. split.
  { intros h Hh. rewrite elem_of_app. intros [Hin|Hin].
    - by eapply (kind_disjoint D1 D2 1 2).
    - by eapply (kind_disjoint D1 D3 1 3). }
  apply NoDup_app. split; [exact Hn2|]. split; [|exact Hn3].
  intros h Hh Hin. by eapply (kind_disjoint D2 D3 2 3).
Qed.

Lemma sample_nominal_text :
  ∀ p, p ∈ [7; 8; 9] → text_or_missing (column sample p).
Proof.
  intros p Hp. apply Forall_forall. intros v Hv.
  cases_of Hp; subst p;
    match type of Hv with _ ∈ ?l =>
      let l' := eval vm_compute in l in change l with l' in Hv
    end;
    cases_of Hv; subst; right; eauto.
Defined.

Lemma headers_distinct_witness :
  length sample = 32 ∧
  (∀ p, p ∈ [7; 8; 9] → text_or_missing (column sample p)) ∧
  ∃ X y df, _preprocess_data sample = Ok (X, y, df) ∧ NoDup (df.*1).
Proof.
  split; [reflexivity|]. split; [exact sample_nominal_text|].
  exact (headers_distinct sample eq_refl sample_nominal_text).
Defined.

Lemma headers_clash_on_mixed_levels :
  ∃ X y df, _preprocess_data sample_mixed_job = Ok (X, y, df) ∧
    filter (λ h, h = "MotherJob_1") (df.*1) = ["MotherJob_1"; "MotherJob_1"].
Proof.
  eexists _, _, _. split; [by apply preprocess_data_eq|].
  vm_compute. reflexivity.
Qed.

Global Instance cell_le_trans : Transitive cell_le.
Proof.
  intros [s|x|] [t|y|] [u|z|]; simpl; try done.
  - apply (transitivity (R := String.le)).
  - apply Z.le_trans.
Qed.

Global Instance cell_le_antisymm : AntiSymm (=) cell_le.
Proof.
  intros [s|x|] [t|y|]; simpl; try done.
  - intros H1 H2. f_equal. by apply (anti_symm String.le).
  - intros H1 H2. f_equal. lia.
Qed.

Global Instance cell_le_total : Total cell_le.
Proof.
  intros [s|x|] [t|y|]; simpl; auto.
  - apply (total String.le).
  - lia.
Qed.

(** The levels of a column depend only on the set of its non-missing
    values, not on their order or multiplicity. *)
Lemma levels_same_values (l l' : list cell) :
  (∀ v, v ≠ NaN → v ∈ l ↔ v ∈ l') → levels l = levels l'.
Proof.
  intros Hsame. unfold levels.
  apply (Sorted_unique cell_le); [apply Sorted_merge_sort; apply _..|].
  rewrite !merge_sort_Permutation.
  apply NoDup_Permutation; [apply NoDup_remove_dups..|].
  intros v. rewrite !elem_of_remove_dups, !list_elem_of_filter.
  split; intros [Hv Hin]; (split; [done|]); by apply (Hsame v Hv).
Qed.

(** X8: when the nominal columns of two inputs hold only strings (or
    missing values), the headers of [df] depend only on which non-missing
    values these columns hold, not on the order or number of the rows. *)
Theorem headers_depend_on_value_sets (students students' : frame) :
  length students = 32 → length students' = 32 →
  (∀ p, p ∈ [7; 8; 9] → text_or_missing (column students p)) →
  (∀ p, p ∈ [7; 8; 9] → text_or_missing (column students' p)) →
  (∀ p v, p ∈ [7; 8; 9] → v ≠ NaN →
     v ∈ column students p ↔ v ∈ column students' p) →
  ∃ X y df X' y' df',
    _preprocess_data students = Ok (X, y, df) ∧
    _preprocess_data students' = Ok (X', y', df') ∧
    df.*1 = df'.*1.
Proof.
  intros Hlen Hlen' _ _ Hsame.
  eexists _, _, _, _, _, _.
  split; [by apply preprocess_data_eq|]. split; [by apply preprocess_data_eq|].
  unfold features. rewrite !fmap_cons, !fmap_app, !get_dummies_headers.
  cbn [snd].
  rewrite (levels_same_values (students.*2 !!! 7) (students'.*2 !!! 7))
    by (intros v Hv; apply (Hsame 7 v); [in_list|done]).
  rewrite (levels_same_values (students.*2 !!! 8) (students'.*2 !!! 8))
    by (intros v Hv; apply (Hsame 8 v); [in_list|done]).
  rewrite (levels_same_values (students.*2 !!! 9) (students'.*2 !!! 9))
    by (intros v Hv; apply (Hsame 9 v); [in_list|done]).
  reflexivity.
Qed.

Lemma sample_reversed_nominal_text :
  ∀ p, p ∈ [7; 8; 9] → text_or_missing (column sample_reversed p).
Proof.
  intros p Hp. apply Forall_forall. intros v Hv.
  cases_of Hp; subst p;
    match type of Hv with _ ∈ ?l =>
      let l' := eval vm_compute in l in change l with l' in Hv
    end;
    cases_of Hv; subst; right; eauto.
Defined.

Lemma headers_depend_on_value_sets_witness :
  length sample = 32 ∧ length sample_reversed = 32 ∧
  (∀ p, p ∈ [7; 8; 9] → text_or_missing (column sample p)) ∧
  (∀ p, p ∈ [7; 8; 9] → text_or_missing (column sample_reversed p)) ∧
  (∀ p v, p ∈ [7; 8; 9] → v ≠ NaN →
     v ∈ column sample p ↔ v ∈ column sample_reversed p) ∧
  ∃ X y df X' y' df',
    _preprocess_data sample = Ok (X, y, df) ∧
    _preprocess_data sample_reversed = Ok (X', y', df') ∧
    df.*1 = df'.*1.
Proof.
  assert (Hsame : ∀ p v, p ∈ [7; 8; 9] → v ≠ NaN →
            v ∈ column sample p ↔ v ∈ column sample_reversed p).
  { intros p v Hp _. cases_of Hp; subst p;
      match goal with |- _ ∈ ?l ↔ _ ∈ ?k =>
        let l' := eval vm_compute in l in
        let k' := eval vm_compute in k in
        change l with l'; change k with k'
      end;
      rewrite !elem_of_cons; tauto. }
  split; [reflexivity|]. split; [reflexivity|].
  split; [exact sample_nominal_text|].
  split; [exact sample_reversed_nominal_text|]. split; [exact Hsame|].
  exact (headers_depend_on_value_sets sample sample_reversed eq_refl eq_refl
           sample_nominal_text sample_reversed_nominal_text Hsame).
Defined.

(** ** The split, the bias configuration and the SHAP baseline *)

Lemma iloc_eq (f : frame) (idx : list nat) :
  Forall (λ i, i < nrows f) idx → iloc f idx = Ok (rows_at f idx).
Proof. intros Hidx. unfold iloc. by rewrite decide_True. Qed.

Lemma rows_at_headers (f : frame) (idx : list nat) : (rows_at f idx).*1 = f.*1.
Proof. unfold rows_at. rewrite <- list_fmap_compose. by apply list_fmap_ext. Qed.

Lemma rows_at_rectangular (f : frame) (idx : list nat) :
  rectangular (length idx) (rows_at f idx).
Proof.
  unfold rows_at. apply Forall_fmap, Forall_forall. intros c _. simpl.
  by rewrite length_fmap.
Qed.

Lemma nrows_rows_at (f : frame) (idx : list nat) :
  f ≠ [] → nrows (rows_at f idx) = length idx.
Proof. destruct f as [|c f]; [done|]. intros _. simpl. by rewrite length_fmap. Qed.

Lemma filter_rows_at (P : string → Prop) `{∀ h, Decision (P h)}
    (f : frame) (idx : list nat) :
  filter (λ c : series, P c.1) (rows_at f idx) =
    rows_at (filter (λ c : series, P c.1) f) idx.
Proof.
  induction f as [|c f IH]; [done|]. unfold rows_at in *. rewrite fmap_cons.
  rewrite !filter_cons. simpl. case_decide; [|done].
  by rewrite fmap_cons, IH.
Qed.

Lemma getattr_rows_at (f : frame) (idx : list nat) (name : string) (col : series) :
  getattr f name = Ok col →
  getattr (rows_at f idx) name = Ok (col.1, (λ i, col.2 !!! i) <$> idx).
Proof.
  unfold getattr.
  pose proof (filter_rows_at (λ h, h = name) f idx) as Hf. simpl in Hf.
  rewrite Hf. clear Hf.
  destruct (filter _ f) as [|c [|??]]; [done| |done].
  by intros [= ->].
Qed.

Section split_more.
Variable permutation : nat → list nat.
Hypothesis permutation_range : ∀ n, permutation n ≡ₚ seq 0 n.

Lemma split_cell_eq (df : frame) (n : nat) :
  df ≠ [] → rectangular n df → 2 ≤ n →
  split_cell permutation df =
    Ok (rows_at df (drop ((n + 4) / 5) (permutation n)),
        rows_at df (take ((n + 4) / 5) (permutation n))).
Proof.
  intros Hne Hrect Hn. unfold split_cell, train_test_split.
  rewrite (nrows_rectangular df n) by done.
  rewrite validate_shuffle_split_fifth, decide_False by lia.
  rewrite bind_Ok. cbv beta iota zeta.
  assert (Hbound := permutation_bound permutation permutation_range n).
  rewrite (take_ge (drop _ _)).
  2:{ rewrite length_drop, (permutation_length permutation permutation_range). lia. }
  rewrite !iloc_eq; [done|..]; rewrite (nrows_rectangular df n) by done.
  - by apply Forall_drop.
  - by apply Forall_take.
Qed.

(** X9: the split cell raises exactly when the frame has fewer than two
    rows, and the exception is then a [ValueError]. *)
Theorem split_cell_raises_iff (df : frame) (e : exn) :
  rectangular (nrows df) df →
  split_cell permutation df = Raise e ↔ nrows df ≤ 1 ∧ e = ValueError.
Proof.
  intros Hrect. destruct (decide (nrows df ≤ 1)) as [Hn|Hn].
  - unfold split_cell, train_test_split.
    rewrite validate_shuffle_split_fifth, decide_True by done.
    split; [by intros [= <-]|by intros [_ ->]].
  - rewrite (split_cell_eq df (nrows df));
      [|intros ->; simpl in Hn; lia|done|lia].
    split; [done|]. by intros [? _].
Qed.

(** X10: on a frame of at least two rows both parts of the split are
    non-empty, the training part is at least as large as the validation
    part, their sizes add up to the number of rows, and both are again
    rectangular frames. *)
Theorem split_parts_nonempty (df : frame) :
  rectangular (nrows df) df → 2 ≤ nrows df →
  ∃ train test, split_cell permutation df = Ok (train, test) ∧
    1 ≤ nrows test ∧ nrows test ≤ nrows train ∧
    nrows train + nrows test = nrows df ∧
    rectangular (nrows train) train ∧ rectangular (nrows test) test.
Proof.
  intros Hrect Hn.
  assert (Hne : df ≠ []) by (intros ->; simpl in Hn; lia).
  rewrite (split_cell_eq df (nrows df)) by done.
  eexists _, _. split; [done|].
  rewrite !nrows_rows_at by done.
  rewrite length_take, length_drop,
    (permutation_length permutation permutation_range).
  pose proof (Nat.div_mod_eq (nrows df + 4) 5) as Hdiv.
  pose proof (Nat.mod_upper_bound (nrows df + 4) 5 ltac:(lia)) as Hmod.
  split_and!; try lia.
  - eapply Forall_impl; [apply rows_at_rectangular|]. simpl. intros c ->.
    by rewrite length_drop, (permutation_length permutation permutation_range).
  - eapply Forall_impl; [apply rows_at_rectangular|]. simpl. intros c ->.
    by rewrite length_take, (permutation_length permutation permutation_range).
Qed.

End split_more.

Lemma preprocessed_rectangular (students : frame) (n : nat) :
  length students = 32 → rectangular n students →
  rectangular n (("FinalGrade", column students 31) :: features (students.*2)).
Proof.
  intros Hlen Hrect.
  assert (Hpt : Forall (λ c : series,
      ∃ p (g : cell → cell), p < 32 ∧ c.2 = g <$> column students p)
      (("FinalGrade", column students 31) :: features (students.*2))).
  { apply Forall_cons_2; [|apply features_pointwise].
    exists 31, id. split; [lia|]. simpl. by rewrite list_fmap_id. }
  eapply Forall_impl; [exact Hpt|]. intros c (p & g & Hp & ->).
  rewrite length_fmap. apply column_length; [done|lia].
Qed.

Lemma features_nonempty (ds : list (list cell)) : features ds ≠ [].
Proof. unfold features. discriminate. Qed.

Lemma drop_rows_at_first (name : string) (y : list cell) (rest : frame)
    (idx : list nat) :
  Forall (λ c : series, c.1 ≠ name) rest →
  DataFrame_drop (rows_at ((name, y) :: rest) idx) [name] = Ok (rows_at rest idx).
Proof.
  intros Hrest. unfold rows_at at 1. rewrite fmap_cons. simpl.
  apply drop_first_column. unfold rows_at.
  apply Forall_fmap. eapply Forall_impl; [exact Hrest|]. by intros c Hc.
Qed.

Lemma row_rows_at (f : frame) (idx : list nat) (k i : nat) :
  idx !! k = Some i → row (rows_at f idx) k = row f i.
Proof.
  intros Hk. unfold row, rows_at. rewrite <- list_fmap_compose.
  apply list_fmap_ext. intros _ c _. simpl.
  apply list_lookup_total_correct. by rewrite list_lookup_fmap, Hk.
Qed.

Section configuration.
Variable permutation : nat → list nat.
Hypothesis permutation_range : ∀ n, permutation n ≡ₚ seq 0 n.

(** X11: the configuration of the bias job fits the uploaded training
    frame: its headers are the headers of [df], the label is the first
    header and occurs once, and the facet and the group are columns of the
    training frame that hold only 1, 0 or the missing value. *)
Theorem clarify_columns_present (data : frame) (n : nat)
    (bucket train_data_s3_path : string) :
  length data = 32 → rectangular n data → 2 ≤ n →
  ∃ X y df train_data validation_data,
    _preprocess_data data = Ok (X, y, df) ∧
    split_cell permutation df = Ok (train_data, validation_data) ∧
    let config := data_config bucket train_data_s3_path train_data in
    headers config = df.*1 ∧
    headers config !! 0 = Some (label config) ∧
    filter (λ h, h = label config) (headers config) = [label config] ∧
    (∃ values, getattr train_data (facet_name data_bias_config)
                 = Ok (facet_name data_bias_config, values) ∧
       Forall (λ w, w = Num 1 ∨ w = Num 0 ∨ w = NaN) values) ∧
    (∃ values, getattr train_data (group_name data_bias_config)
                 = Ok (group_name data_bias_config, values) ∧
       Forall (λ w, w = Num 1 ∨ w = Num 0 ∨ w = NaN) values).
Proof.
  intros Hlen Hrect Hn.
  eexists _, _, _, _, _. split; [by apply preprocess_data_eq|].
  split.
  { apply (split_cell_eq permutation permutation_range _ n);
      [done|by apply preprocessed_rectangular|done]. }
  cbn zeta. unfold data_config, data_bias_config. cbn [headers label facet_name group_name].
  rewrite rows_at_headers.
  assert (Hbits : ∀ (one zero : string) (l : list cell) (idx : list nat),
            Forall (λ w, w = Num 1 ∨ w = Num 0 ∨ w = NaN)
              ((λ i, (map_cell {[ one := 1%Z; zero := 0%Z ]} <$> l) !!! i) <$> idx)).
  { intros one zero l idx. apply Forall_fmap, Forall_forall. intros i _. simpl.
    destruct (decide (i < length l)) as [Hi|Hi].
    - destruct (lookup_lt_is_Some_2 l i Hi) as [v Hv].
      rewrite (list_lookup_total_correct _ i (map_cell {[ one := 1%Z; zero := 0%Z ]} v))
        by (by rewrite list_lookup_fmap, Hv).
      unfold map_cell. destruct v as [s|z|]; auto.
      rewrite dict_lookup. repeat case_decide; auto.
    - rewrite list_lookup_total_alt, lookup_ge_None_2; [auto|].
      rewrite length_fmap. lia. }
  assert (Hcol : ∀ name one zero : string,
            (name, one, zero) ∈ binary_codes → name ≠ "FinalGrade" →
            getattr (("FinalGrade", column data 31) :: features (data.*2)) name =
              Ok (name, map_cell {[ one := 1%Z; zero := 0%Z ]}
                          <$> data.*2 !!! position name)).
  { intros name one zero Hcode Hname. unfold getattr.
    rewrite filter_cons_False by (simpl; congruence).
    by apply getattr_features_binary. }
  split_and!.
  - done.
  - done.
  - rewrite fmap_cons. rewrite filter_cons_True by done.
    rewrite filter_none; [done|].
    apply Forall_fmap. apply (features_not_named _ "FinalGrade"). in_list.
  - pose proof (Hcol "Gender" "F" "M" ltac:(in_list) ltac:(discriminate)) as Hg.
    eexists. split; [exact (getattr_rows_at _ _ _ _ Hg)|apply Hbits].
  - pose proof (Hcol "ParentCohabStatus" "T" "A"
                  ltac:(in_list) ltac:(discriminate)) as Hg.
    eexists. split; [exact (getattr_rows_at _ _ _ _ Hg)|apply Hbits].
Qed.

(** X12: the SHAP baseline is defined (the validation frame has a first
    row); it is the feature row of the student the shuffle puts first, and
    it has one value per header other than the label. *)
Theorem shap_baseline_is_first_validation_row (data : frame) (n : nat) :
  length data = 32 → rectangular n data → 2 ≤ n →
  ∃ X y df train_data validation_data first,
    _preprocess_data data = Ok (X, y, df) ∧
    split_cell permutation df = Ok (train_data, validation_data) ∧
    permutation n !! 0 = Some first ∧
    shap_baseline validation_data = Ok [row X first] ∧
    length (row X first) = length (train_data.*1) - 1.
Proof.
  intros Hlen Hrect Hn.
  assert (Hfirst : is_Some (permutation n !! 0)).
  { apply lookup_lt_is_Some_2.
    rewrite (permutation_length permutation permutation_range). lia. }
  destruct Hfirst as [first Hfirst].
  eexists _, _, _, _, _, first. split; [by apply preprocess_data_eq|].
  split.
  { apply (split_cell_eq permutation permutation_range _ n);
      [done|by apply preprocessed_rectangular|done]. }
  split; [done|]. split.
  - unfold shap_baseline.
    rewrite drop_rows_at_first by (apply features_not_named; in_list).
    rewrite bind_Ok. unfold iloc_row.
    rewrite nrows_rows_at by apply features_nonempty.
    assert (Htake : take ((n + 4) / 5) (permutation n) !! 0 = Some first).
    { rewrite lookup_take_lt; [done|].
      pose proof (Nat.div_mod_eq (n + 4) 5).
      pose proof (Nat.mod_upper_bound (n + 4) 5 ltac:(lia)). lia. }
    rewrite decide_True by (by eapply lookup_lt_Some).
    rewrite bind_Ok. by rewrite (row_rows_at _ _ 0 first).
  - rewrite rows_at_headers. unfold row.
    rewrite fmap_cons. cbn [length]. rewrite !length_fmap. lia.
Qed.

End configuration.

(** ** Order forced by the names the cells read *)

Lemma exec_app (k : kernel) (p q : list stmt) :
  exec k (p ++ q) = exec k p ≫= λ k', exec k' q.
Proof.
  revert k. induction p as [|s p IH]; intros k; [done|]. simpl.
  destruct (exec_stmt k s) as [k1|e]; [|done]. apply IH.
Qed.

Lemma exec_stmt_reads (k k' : kernel) (s : stmt) :
  exec_stmt k s = Ok k' →
  match s with
  | Assign targets reads =>
      Forall (λ x, x ∈ bound k) reads ∧
      k' = Kernel (list_to_set targets ∪ bound k) (trace k)
  | Remote c targets reads =>
      Forall (λ x, x ∈ bound k) reads ∧
      k' = Kernel (list_to_set targets ∪ bound k) (trace k ++ [c])
  end.
Proof.
  destruct s as [targets reads|c targets reads]; simpl;
    case_decide; intros [= <-]; done.
Qed.

Lemma exec_trace (k k' : kernel) (prog : list stmt) :
  exec k prog = Ok k' → trace k' = trace k ++ calls prog.
Proof.
  revert k. induction prog as [|s prog IH]; intros k; simpl.
  { intros [= <-]. by rewrite app_nil_r. }
  destruct (exec_stmt k s) as [k1|e] eqn:Hs; [|done]. simpl.
  intros Hrest. rewrite (IH k1 Hrest).
  apply exec_stmt_reads in Hs.
  destruct s as [targets reads|c targets reads]; destruct Hs as [_ ->]; simpl.
  - done.
  - unfold calls. simpl. by rewrite <- (assoc (++)).
Qed.

Lemma only_after_app (a b : call) (tr ext : list call) :
  only_after a b tr → (b ∈ ext → a ∈ tr) → only_after a b (tr ++ ext).
Proof.
  intros Htr Hext j Hj.
  destruct (decide (j < length tr)) as [Hlt|Hge].
  - rewrite lookup_app_l in Hj by done.
    destruct (Htr j Hj) as (i & Hi & Ha). exists i. split; [done|].
    rewrite lookup_app_l; [done|lia].
  - rewrite lookup_app_r in Hj by lia.
    apply list_elem_of_lookup_2, Hext, list_elem_of_lookup in Hj as [i Hi].
    exists i. pose proof (lookup_lt_Some _ _ _ Hi).
    split; [lia|]. by rewrite lookup_app_l.
Qed.

Lemma guarded_step (a : call) (G : list string) (k k' : kernel) (s : stmt) :
  guarded a G s = true → witnessed a G k → exec_stmt k s = Ok k' →
  witnessed a G k'.
Proof.
  intros Hg Hw Hs x HxG Hx. apply exec_stmt_reads in Hs.
  assert (Hread : ∀ reads, Forall (λ y, y ∈ bound k) reads →
            Exists (λ y, y ∈ G) reads → a ∈ trace k).
  { intros reads Hall (y & Hy & HyG)%Exists_exists.
    rewrite Forall_forall in Hall. by apply (Hw y), Hall. }
  assert (Hbind : ∀ targets : list string, Forall (λ y, y ∉ G) targets →
            x ∈ (list_to_set targets ∪ bound k : gset string) → x ∈ bound k).
  { intros targets Hall [Hin|Hin]%elem_of_union; [|done].
    apply elem_of_list_to_set in Hin. rewrite Forall_forall in Hall.
    by destruct (Hall x Hin). }
  destruct s as [targets reads|c targets reads]; destruct Hs as [Hreads ->];
    simpl in *.
  - apply orb_true_iff in Hg as [Hg|Hg]; apply bool_decide_eq_true in Hg.
    + apply (Hw x HxG). by eapply Hbind.
    + by eapply Hread.
  - rewrite elem_of_app.
    apply orb_true_iff in Hg as [Hg|Hg];
      [apply orb_true_iff in Hg as [Hg|Hg]|]; apply bool_decide_eq_true in Hg.
    + right. subst c. left.
    + left. apply (Hw x HxG). by eapply Hbind.
    + left. by eapply Hread.
Qed.

Lemma needs_step (a b : call) (G : list string) (k k' : kernel) (s : stmt) :
  needs b G s = true → witnessed a G k → only_after a b (trace k) →
  exec_stmt k s = Ok k' → only_after a b (trace k').
Proof.
  intros Hn Hw Hafter Hs. apply exec_stmt_reads in Hs.
  destruct s as [targets reads|c targets reads]; destruct Hs as [Hreads ->];
    simpl in *; [done|].
  apply only_after_app; [done|]. intros ->%list_elem_of_singleton.
  rewrite decide_True in Hn by done. apply bool_decide_eq_true in Hn.
  apply Exists_exists in Hn as (y & Hy & HyG).
  rewrite Forall_forall in Hreads. by apply (Hw y), Hreads.
Qed.

Lemma block_step (a b : call) (G : list string) (k k' : kernel)
    (block : list stmt) :
  block_respects a b G block = true →
  witnessed a G k → only_after a b (trace k) → exec k block = Ok k' →
  witnessed a G k' ∧ only_after a b (trace k').
Proof.
  intros Hb Hw Hafter Hrun. apply orb_true_iff in Hb as [Hb|Hb].
  - revert k Hw Hafter Hrun.
    induction block as [|s block IH]; intros k Hw Hafter Hrun; simpl in *.
    { by injection Hrun as <-. }
    apply andb_true_iff in Hb as [Hs Hb].
    apply andb_true_iff in Hs as [Hg Hn].
    destruct (exec_stmt k s) as [k1|e] eqn:Hstep; [|done]. simpl in Hrun.
    apply (IH Hb k1); [by eapply guarded_step|by eapply needs_step|done].
  - apply andb_true_iff in Hb as [Ha Hnb].
    apply bool_decide_eq_true in Ha, Hnb.
    unfold witnessed. rewrite (exec_trace k k' block Hrun). split.
    + intros x _ _. apply elem_of_app. by right.
    + apply only_after_app; [done|]. by intros ?.
Qed.

Lemma blocks_run (a b : call) (G : list string) (blocks : list (list stmt)) :
  Forall (λ block, block_respects a b G block = true) blocks →
  ∀ k k', witnessed a G k → only_after a b (trace k) →
    exec k (mjoin blocks) = Ok k' →
    witnessed a G k' ∧ only_after a b (trace k').
Proof.
  induction 1 as [|block blocks Hb _ IH]; intros k k' Hw Hafter Hrun; simpl in *.
  { by injection Hrun as <-. }
  rewrite exec_app in Hrun.
  destruct (exec k block) as [k1|e] eqn:Hblock; [|done]. simpl in Hrun.
  destruct (block_step a b G k k1 block Hb Hw Hafter Hblock) as [Hw1 Hafter1].
  by apply (IH k1 k').
Qed.

(** Whatever cells of the notebook are run from a fresh kernel, in whatever
    order and however often: if none of them stops on an unbound name, [b]
    is only ever submitted after [a]. *)
Lemma cells_run (a b : call) (G : list string) (cells : list (list stmt)) (k : kernel) :
  forallb (block_respects a b G) notebook = true →
  Forall (λ c, c ∈ notebook) cells →
  exec (Kernel ∅ []) (mjoin cells) = Ok k →
  only_after a b (trace k).
Proof.
  intros Hok Hcells Hrun. rewrite forallb_forall in Hok.
  eapply (blocks_run a b G cells); [| | |exact Hrun].
  - eapply Forall_impl; [exact Hcells|]. intros c Hc. simpl in Hc.
    by apply Hok, list_elem_of_In.
  - intros x _ Hx. simpl in Hx. by apply not_elem_of_empty in Hx.
  - intros j Hj. simpl in Hj. by rewrite lookup_nil in Hj.
Qed.

(** X13: whatever cells of the notebook are run from a fresh kernel, in
    whatever order and however often, if no cell stops on an unbound name
    then the pre-training bias job, the tuning job, the post-training bias
    job and the explainability job are submitted only after the training
    data was uploaded, and the tuning job only after the validation data
    was. *)
Theorem uploads_forced_before_jobs (cells : list (list stmt)) (k : kernel) :
  Forall (λ c, c ∈ notebook) cells →
  exec (Kernel ∅ []) (mjoin cells) = Ok k →
  only_after (S3Upload "train_data.csv") RunPreTrainingBias (trace k) ∧
  only_after (S3Upload "train_data.csv") TunerFit (trace k) ∧
  only_after (S3Upload "validation_data.csv") TunerFit (trace k) ∧
  only_after (S3Upload "train_data.csv") RunPostTrainingBias (trace k) ∧
  only_after (S3Upload "train_data.csv") RunExplainability (trace k).
Proof.
  intros Hcells Hrun. split_and!.
  - apply (cells_run _ _ after_train_upload cells); [by vm_compute|done..].
  - apply (cells_run _ _ after_train_upload cells); [by vm_compute|done..].
  - apply (cells_run _ _ after_validation_upload cells); [by vm_compute|done..].
  - apply (cells_run _ _ after_train_upload cells); [by vm_compute|done..].
  - apply (cells_run _ _ after_train_upload cells); [by vm_compute|done..].
Qed.

(** X14: under the same runs, the post-training bias job, the
    explainability job and the clean-up calls are submitted only after the
    deployment. *)
Theorem deploy_forced_before_post_training (cells : list (list stmt)) (k : kernel) :
  Forall (λ c, c ∈ notebook) cells →
  exec (Kernel ∅ []) (mjoin cells) = Ok k →
  only_after TunerDeploy RunPostTrainingBias (trace k) ∧
  only_after TunerDeploy RunExplainability (trace k) ∧
  only_after TunerDeploy DeleteModel (trace k) ∧
  only_after TunerDeploy DeleteEndpoint (trace k).
Proof.
  intros Hcells Hrun. split_and!.
  - apply (cells_run _ _ after_deploy cells); [by vm_compute|done..].
  - apply (cells_run _ _ after_deploy cells); [by vm_compute|done..].
  - apply (cells_run _ _ after_deploy cells); [by vm_compute|done..].
  - apply (cells_run _ _ after_deploy cells); [by vm_compute|done..].
Qed.


(** ** Witnesses for the split, the configuration and the cell order *)

Lemma identity_permutation_range : ∀ n, identity_permutation n ≡ₚ seq 0 n.
Proof. reflexivity. Defined.

Lemma sample_two_rows : rectangular (nrows sample) sample.
Proof. repeat constructor. Defined.

Lemma split_cell_raises_iff_witness :
  (∀ n, identity_permutation n ≡ₚ seq 0 n) ∧
  rectangular (nrows sample) sample ∧
  (split_cell identity_permutation sample = Raise ValueError ↔
     nrows sample ≤ 1 ∧ ValueError = ValueError).
Proof.
  split; [exact identity_permutation_range|]. split; [exact sample_two_rows|].
  exact (split_cell_raises_iff identity_permutation identity_permutation_range
           sample ValueError sample_two_rows).
Defined.

Lemma split_parts_nonempty_witness :
  (∀ n, identity_permutation n ≡ₚ seq 0 n) ∧
  rectangular (nrows sample) sample ∧ 2 ≤ nrows sample ∧
  ∃ train test, split_cell identity_permutation sample = Ok (train, test) ∧
    1 ≤ nrows test ∧ nrows test ≤ nrows train.
Proof.
  split; [exact identity_permutation_range|]. split; [exact sample_two_rows|].
  split; [simpl; lia|].
  destruct (split_parts_nonempty identity_permutation identity_permutation_range
              sample sample_two_rows ltac:(simpl; lia))
    as (train & test & Hrun & H1 & H2 & _).
  exists train, test. split; [exact Hrun|]. split; [exact H1|exact H2].
Defined.

Lemma clarify_columns_present_witness :
  (∀ n, identity_permutation n ≡ₚ seq 0 n) ∧
  length sample = 32 ∧ rectangular 2 sample ∧ 2 ≤ 2 ∧
  ∃ X y df train_data validation_data,
    _preprocess_data sample = Ok (X, y, df) ∧
    split_cell identity_permutation df = Ok (train_data, validation_data) ∧
    headers (data_config "bucket" "path" train_data) !! 0 = Some "FinalGrade".
Proof.
  split; [exact identity_permutation_range|]. split; [reflexivity|].
  split; [exact sample_two_rows|]. split; [lia|].
  destruct (clarify_columns_present identity_permutation identity_permutation_range
              sample 2 "bucket" "path" eq_refl sample_two_rows ltac:(lia))
    as (X & y & df & train & validation & Hrun & Hsplit & _ & Hfirst & _).
  exists X, y, df, train, validation.
  split; [exact Hrun|]. split; [exact Hsplit|exact Hfirst].
Defined.

Lemma shap_baseline_is_first_validation_row_witness :
  (∀ n, identity_permutation n ≡ₚ seq 0 n) ∧
  length sample = 32 ∧ rectangular 2 sample ∧ 2 ≤ 2 ∧
  ∃ X y df train_data validation_data,
    _preprocess_data sample = Ok (X, y, df) ∧
    split_cell identity_permutation df = Ok (train_data, validation_data) ∧
    shap_baseline validation_data = Ok [row X 0].
Proof.
  split; [exact identity_permutation_range|]. split; [reflexivity|].
  split; [exact sample_two_rows|]. split; [lia|].
  destruct (shap_baseline_is_first_validation_row identity_permutation
              identity_permutation_range sample 2 eq_refl sample_two_rows
              ltac:(lia))
    as (X & y & df & train & validation & first & Hrun & Hsplit & Hfirst & Hbase & _).
  exists X, y, df, train, validation.
  split; [exact Hrun|]. split; [exact Hsplit|].
  injection Hfirst as <-. exact Hbase.
Defined.

Lemma notebook_cells : Forall (λ c, c ∈ notebook) notebook.
Proof. apply Forall_forall. auto. Defined.

Lemma uploads_forced_before_jobs_witness :
  Forall (λ c, c ∈ notebook) notebook ∧
  ∃ k, exec (Kernel ∅ []) (mjoin notebook) = Ok k ∧
    only_after (S3Upload "train_data.csv") RunPreTrainingBias (trace k).
Proof.
  split; [exact notebook_cells|].
  destruct run_all_trace as (k & Hrun & _). exists k. split; [exact Hrun|].
  exact (proj1 (uploads_forced_before_jobs notebook k notebook_cells Hrun)).
Defined.

Lemma deploy_forced_before_post_training_witness :
  Forall (λ c, c ∈ notebook) notebook ∧
  ∃ k, exec (Kernel ∅ []) (mjoin notebook) = Ok k ∧
    only_after TunerDeploy RunPostTrainingBias (trace k).
Proof.
  split; [exact notebook_cells|].
  destruct run_all_trace as (k & Hrun & _). exists k. split; [exact Hrun|].
  exact (proj1 (deploy_forced_before_post_training notebook k notebook_cells Hrun)).
Defined.
